(** * The node agent's OperatingSystemConfig reconciler

    A shallow embedding of
    [pkg/nodeagent/controller/operatingsystemconfig/reconciler.go]:
    [Reconcile] and the five phase functions it calls.  The reconciler talks to
    three interfaces ([client.Client], [afero.Afero], [dbus.DBus]); they are
    type classes over an abstract machine state [W], and every call the code
    makes is appended, with its error result, to the trace of the pass
    together with the [log.Info] lines. *)

From Stdlib Require Import ZArith Ascii String List Permutation Lia.
From Stdlib.Strings Require Import Byte.
From stdpp Require Import base option list strings gmap.

Open Scope Z_scope.

Set Default Proof Using "Type".

(** ** Go errors *)

(** [fmt.Errorf(format, args..., err)] with a [%w] verb keeps the wrapped
    error; the format strings are those of the source. *)
Inductive error : Type :=
| ErrFileNotFound                       (* afero.ErrFileNotFound *)
| StatusNotFound                        (* an API status error, reason NotFound *)
| ErrOther (msg : string)               (* any other leaf error *)
| Errorf (format : string) (args : list string) (err : error).

#[global] Instance error_eq_dec : EqDecision error.
Proof. solve_decision. Defined.

#[global] Instance byte_eq_decision : EqDecision byte := byte_eq_dec.

(** [errors.Is]: the error itself or one it wraps. *)
Fixpoint errors_Is (err target : error) : bool :=
  if decide (err = target) then true
  else match err with
       | Errorf _ _ err' => errors_Is err' target
       | _ => false
       end.

Definition apierrors_IsNotFound (err : error) : bool := errors_Is err StatusNotFound.

(** [err != nil && cond(err)] *)
Definition err_and (err : option error) (cond : error → bool) : option error :=
  match err with
  | Some e => if cond e then Some e else None
  | None => None
  end.

(** [!errors.Is(err, afero.ErrFileNotFound)] *)
Definition notFileNotFound (err : error) : bool := negb (errors_Is err ErrFileNotFound).

(** ** Data model *)

Definition FileMode := Z.                (* os.FileMode, a uint32 *)

(** Go's octal literals, digit by digit: [octal [6; 0; 0]] is [0600]. *)
Definition octal (digits : list Z) : Z := fold_left (λ acc d, acc * 8 + d) digits 0.

Definition defaultFilePermissions : FileMode := octal [6; 0; 0].
Definition fs_ModeDir : FileMode := Z.shiftl 1 31.

(** [fs.FileMode(p)]: conversion of an integer to uint32. *)
Definition fs_FileMode (p : Z) : FileMode := p `mod` 2 ^ 32.

Definition pointer_BoolDeref (ptr : option bool) (def : bool) : bool :=
  match ptr with Some b => b | None => def end.

Record FileContentInline := { Encoding : string; Data : string }.

Record FileContent := { Inline : option FileContentInline }.

Record File := {
  Path : string;
  Permissions : option Z;
  Content : FileContent }.

(** Modelled from the spec: the type [extensionsv1alpha1.UnitCommand] and its
    constant [CommandStop] are declared outside the sources at hand; the data
    model gives "command: optional enum {Start, Stop}". *)
Inductive UnitCommand := CommandStart | CommandStop.

#[global] Instance UnitCommand_eq_dec : EqDecision UnitCommand.
Proof. solve_decision. Defined.

Record DropIn := { DropInName : string; DropInContent : string }.

Record Unit := {
  Name : string;
  Command : option UnitCommand;
  Enable : option bool;
  UnitContent : option string;
  DropIns : list DropIn }.

(** The drop-in sub-diff of a changed unit. *)
Record dropIns := { dropIns_changed : list DropIn; dropIns_deleted : list DropIn }.

(** [changedUnit]: a desired unit (embedded) with its drop-in sub-diff. *)
Record changedUnit := { unit_ : Unit; unit_dropIns : dropIns }.

Record files := { files_changed : list File; files_deleted : list File }.
Record units := { units_changed : list changedUnit; units_deleted : list Unit }.
Record operatingSystemConfigChanges := { changes_files : files; changes_units : units }.

(** The empty change set. *)
Definition no_changes : operatingSystemConfigChanges :=
  {| changes_files := {| files_changed := []; files_deleted := [] |};
     changes_units := {| units_changed := []; units_deleted := [] |} |}.

(** The node's [PartialObjectMetadata]: its name and annotations. *)
Record Node := { NodeObjName : string; Annotations : gmap string string }.

(** Reading a missing key of a Go map gives the zero value. *)
Definition annotation (n : Node) (key : string) : string :=
  default "" (Annotations n !! key).

Definition metav1_SetMetaDataAnnotation (n : Node) (key value : string) : Node :=
  {| NodeObjName := NodeObjName n; Annotations := <[key := value]> (Annotations n) |}.

(** [corev1.Secret]: the fields a reconciler reads. *)
Record Secret := { SecretData : gmap string (list byte); SecretAnnotations : gmap string string }.

Record NamespacedName := { Namespace : string; ObjName : string }.
Record Request := { RequestNamespacedName : NamespacedName }.

(** [reconcile.Result]; durations in nanoseconds. *)
Record Result := { Requeue : bool; RequeueAfter : Z }.
Definition Result_zero : Result := {| Requeue := false; RequeueAfter := 0 |}.
Definition time_Second : Z := 1000000000.

(** ** The trace of a pass *)

Inductive call :=
| ClientGetSecret (key : NamespacedName)
| ClientGetNode (name : string)
| ClientPatch (node patchBase : Node)
| FSTempDir (dir pattern : string)
| FSRemoveAll (p : string)
| FSMkdirAll (p : string) (perm : FileMode)
| FSWriteFile (p : string) (data : list byte) (perm : FileMode)
| FSRename (oldname newname : string)
| FSRemove (p : string)
| FSReadFile (p : string)
| FSChmod (p : string) (perm : FileMode)
| DBusEnable (unitName : string)
| DBusDisable (unitName : string)
| DBusStop (unitName : string)
| DBusRestart (unitName : string)
| DBusDaemonReload.

Inductive logval := LStr (s : string) | LInt (n : nat).

Inductive event :=
| Called (c : call) (err : option error)          (* an interface call and its error *)
| Recorded (eventtype reason message : string)    (* Recorder.Event *)
| Logged (level : nat) (msg : string) (kv : list logval).

(** ** The interfaces the reconciler is given *)

Class Client (W : Type) := {
  Client_GetSecret : NamespacedName → W → (Secret * option error) * W;
  Client_GetNode : string → W → (Node * option error) * W;
  Client_Patch : Node → Node → W → option error * W }.

Class Afero (W : Type) := {
  FS_TempDir : string → string → W → (string * option error) * W;
  FS_RemoveAll : string → W → option error * W;
  FS_MkdirAll : string → FileMode → W → option error * W;
  FS_WriteFile : string → list byte → FileMode → W → option error * W;
  FS_Rename : string → string → W → option error * W;
  FS_Remove : string → W → option error * W;
  FS_ReadFile : string → W → (list byte * option error) * W;
  FS_Chmod : string → FileMode → W → option error * W }.

Class DBus (W : Type) := {
  DBus_Enable : string → W → option error * W;
  DBus_Disable : string → W → option error * W;
  DBus_Stop : option Node → string → W → option error * W;
  DBus_Restart : option Node → string → W → option error * W;
  DBus_DaemonReload : W → option error * W }.

(** ** The reconciler *)

(** The fields of [Reconciler] that are plain data. *)
Record Reconciler := {
  NodeName : string;
  Config_KubernetesVersion : string;
  Config_SyncPeriod : Z }.

(** [insert_at k x l] puts [x] before position [k] of [l]. *)
Definition insert_at {A} (k : nat) (x : A) (l : list A) : list A :=
  take k l ++ x :: drop k l.

(** The order in which the goroutines of a fan-out get to run: task by task,
    the scheduler's [picks] say at which position of the order so far the next
    task lands. *)
Fixpoint schedule {A} (picks : list nat) (l : list A) : list A :=
  match l with
  | [] => []
  | x :: l' => insert_at (hd 0%nat picks `mod` S (length l')) x (schedule (tl picks) l')
  end.

(** ** A scripted machine *)

(** A machine that is nothing but the answers it will still give: every call
    takes the next one, and past the end of the script every call succeeds.
    It serves to run the reconciler on examples. *)
Definition script := list (option error).

Definition reply (w : script) : option error * script := (hd None w, tl w).

Definition reply_with {A} (a : A) (w : script) : (A * option error) * script :=
  ((a, hd None w), tl w).

Definition scripted_client (secret : Secret) (node : Node) : Client script :=
  {| Client_GetSecret _ := reply_with secret;
     Client_GetNode _ := reply_with node;
     Client_Patch _ _ := reply |}.

(** Every file reads as [content]. *)
Definition scripted_afero (content : list byte) : Afero script :=
  {| FS_TempDir _ _ := reply_with "/tmp/gardener-node-agent-1";
     FS_RemoveAll _ := reply;
     FS_MkdirAll _ _ := reply;
     FS_WriteFile _ _ _ := reply;
     FS_Rename _ _ := reply;
     FS_Remove _ := reply;
     FS_ReadFile _ := reply_with content;
     FS_Chmod _ _ := reply |}.

Definition scripted_dbus : DBus script :=
  {| DBus_Enable _ := reply;
     DBus_Disable _ := reply;
     DBus_Stop _ _ := reply;
     DBus_Restart _ _ := reply;
     DBus_DaemonReload := reply |}.

(** Paths joined by slashes; a leading root stays as it is. *)
Definition join_slash (parts : list string) : string :=
  match parts with
  | "/" :: rest => "/" +:+ String.concat "/" rest
  | _ => String.concat "/" parts
  end.

(** A path cut at its last slash. *)
Fixpoint last_slash (s : string) : option (string * string) :=
  match s with
  | EmptyString => None
  | String c s' =>
      match last_slash s' with
      | Some (d, b) => Some (String c d, b)
      | None => if Ascii.eqb c "/"%char then Some (EmptyString, s') else None
      end
  end.

Definition dir_name (s : string) : string :=
  match last_slash s with
  | Some (EmptyString, _) => "/"
  | Some (d, _) => d
  | None => "."
  end.

Definition base_name (s : string) : string :=
  match last_slash s with
  | Some (_, b) => b
  | None => s
  end.

(** A decoder that takes the data as it is. *)
Definition decode_plain (encoding : string) (data : list byte) : list byte + error := inl data.

(** A configuration that is its own change set, or the error of computing it. *)
Definition example_OSC : Type := operatingSystemConfigChanges + error.

Definition example_extract (osc : example_OSC) (oscChecksum : string) (secret : Secret)
    : (example_OSC * list byte * string) + error :=
  inl (osc, [], oscChecksum).

Definition example_compute (w : script) (osc : example_OSC) : operatingSystemConfigChanges + error := osc.

Definition example_secret : Secret := {| SecretData := ∅; SecretAnnotations := ∅ |}.

Definition example_node (oscChecksum : string) : Node :=
  {| NodeObjName := "node-1"; Annotations := {[ "checksum/cloud-config-data" := oscChecksum ]} |}.

Definition example_reconciler : Reconciler :=
  {| NodeName := "node-1"; Config_KubernetesVersion := "1.27.1"; Config_SyncPeriod := 60 * time_Second |}.

Definition example_request : Request :=
  {| RequestNamespacedName := {| Namespace := "kube-system"; ObjName := "osc-secret" |} |}.

Definition example_unit (name : string) (enable : option bool) (command : option UnitCommand) : changedUnit :=
  {| unit_ := {| Name := name; Command := command; Enable := enable;
                 UnitContent := Some "[Unit]"; DropIns := [{| DropInName := "10-env.conf"; DropInContent := "[Unit]" |}] |};
     unit_dropIns := {| dropIns_changed := [{| DropInName := "10-env.conf"; DropInContent := "[Unit]" |}];
                        dropIns_deleted := [] |} |}.

Section reconciler.

Context {W : Type} {client : Client W} {afero : Afero W} {dbus : DBus W}.

(** What the sources at hand use but do not declare. *)
Variable OSC : Type.
Variable BaseDir : string.                        (* nodeagentv1alpha1.BaseDir *)
Variable AnnotationKeyChecksum : string.          (* executor.AnnotationKeyChecksum *)
Variable LabelWorkerKubernetesVersion : string.   (* v1beta1constants.LabelWorkerKubernetesVersion *)
Variable EventTypeNormal : string.                (* corev1.EventTypeNormal *)
Variable path_Join : list string → string.
Variable filepath_Join : list string → string.
Variable filepath_Dir : string → string.
Variable filepath_Base : string → string.
Variable Decode : string → list byte → list byte + error.   (* extensionsv1alpha1helper.Decode *)
Variable extractOSCFromSecret : Secret → (OSC * list byte * string) + error.

(** Modelled from the spec: [computeOperatingSystemConfigChanges] is declared
    outside the sources at hand.  Section 4.1: "pure, deterministic, no I/O
    side effects beyond reading current state for comparison"; it may fail. *)
Variable computeOperatingSystemConfigChanges : W → OSC → operatingSystemConfigChanges + error.

(** The scheduler's choices for the fan-out of the unit commands. *)
Variable picks : list nat.

Variable r : Reconciler.

Definition dataKeyOperatingSystemConfig : string := "osc.yaml".
Definition lastAppliedOperatingSystemConfigFilePath : string := BaseDir +:+ "/last-applied-osc.yaml".

(** *** State and trace *)

(** A computation reads and changes the machine and emits a piece of trace. *)
Definition M (A : Type) : Type := W → A * W * list event.

#[local] Instance M_ret : MRet M := λ A a w, (a, w, []).
#[local] Instance M_bind : MBind M := λ A B k m w,
  let '(a, w1, t1) := m w in
  let '(b, w2, t2) := k a w1 in
  (b, w2, t1 ++ t2).

Definition emit (e : event) : M () := λ w, ((), w, [e]).

Definition invoke (c : call) (f : W → option error * W) : M (option error) := λ w,
  let '(err, w') := f w in (err, w', [Called c err]).

Definition invoke_with {A} (c : call) (f : W → (A * option error) * W) : M (A * option error) := λ w,
  let '((a, err), w') := f w in ((a, err), w', [Called c err]).

(** Reading the machine without changing it. *)
Definition inspect {A} (f : W → A) : M A := λ w, (f w, w, []).

Definition log_Info (msg : string) (kv : list logval) : M () := emit (Logged 0 msg kv).
Definition log_V1_Info (msg : string) (kv : list logval) : M () := emit (Logged 1 msg kv).

(** [for _, x := range l { body }] where the body may return an error from the
    enclosing function; [None] stands for falling through to the next round. *)
Fixpoint range {A} (l : list A) (body : A → M (option error)) : M (option error) :=
  match l with
  | [] => mret None
  | x :: l' =>
      err ← body x;
      if err is Some e then mret (Some e) else range l' body
  end.

Definition etcSystemdSystem : string := path_Join ["/"; "etc"; "systemd"; "system"].

(** *** applyChangedFiles *)

Definition applyChangedFiles_body (tmpDir : string) (file : File) : M (option error) :=
  match Inline (Content file) with
  | None => mret None                                                (* continue *)
  | Some inline =>
      err ← invoke (FSMkdirAll (filepath_Dir (Path file)) fs_ModeDir)
                   (FS_MkdirAll (filepath_Dir (Path file)) fs_ModeDir);
      if err is Some err then mret (Some (Errorf "unable to create directory %q: %w" [Path file] err)) else
      let permissions :=
        match Permissions file with
        | Some p => fs_FileMode p
        | None => defaultFilePermissions
        end in
      match Decode (Encoding inline) (list_byte_of_string (Data inline)) with
      | inr err => mret (Some (Errorf "unable to decode data of file %q: %w" [Path file] err))
      | inl data =>
          let tmpFilePath := filepath_Join [tmpDir; filepath_Base (Path file)] in
          err ← invoke (FSWriteFile tmpFilePath data permissions) (FS_WriteFile tmpFilePath data permissions);
          if err is Some err then mret (Some (Errorf "unable to create temporary file %q: %w" [tmpFilePath] err)) else
          err ← invoke (FSRename tmpFilePath (Path file)) (FS_Rename tmpFilePath (Path file));
          if err is Some err then
            mret (Some (Errorf "unable to rename temporary file %q to %q: %w" [tmpFilePath; Path file] err)) else
          _ ← log_Info "Successfully applied new or changed file" [LStr "path"; LStr (Path file)];
          mret None
      end
  end.

Definition applyChangedFiles (files : list File) : M (option error) :=
  '(tmpDir, err) ← invoke_with (FSTempDir "" "gardener-node-agent-*") (FS_TempDir "" "gardener-node-agent-*");
  if err is Some err then mret (Some (Errorf "unable to create temporary directory: %w" [] err)) else
  res ← range files (applyChangedFiles_body tmpDir);
  (* the deferred clean-up; utilruntime.HandleError only reports its error *)
  _ ← invoke (FSRemoveAll tmpDir) (FS_RemoveAll tmpDir);
  mret res.

(** *** removeDeletedFiles *)

Definition removeDeletedFiles_body (file : File) : M (option error) :=
  err ← invoke (FSRemove (Path file)) (FS_Remove (Path file));
  if err_and err notFileNotFound is Some err then
    mret (Some (Errorf "unable to delete no longer needed file %q: %w" [Path file] err)) else
  _ ← log_Info "Successfully removed no longer needed file" [LStr "path"; LStr (Path file)];
  mret None.

Definition removeDeletedFiles (files : list File) : M (option error) :=
  range files removeDeletedFiles_body.

(** *** applyChangedUnits *)

Definition bytes_Equal (a b : list byte) : bool := bool_decide (a = b).

(** Lines 225-243: the unit file itself. *)
Definition applyUnitFile (unit : changedUnit) (unitFilePath : string) : M (option error) :=
  match UnitContent (unit_ unit) with
  | None => mret None
  | Some content =>
      '(oldUnitContent, err) ← invoke_with (FSReadFile unitFilePath) (FS_ReadFile unitFilePath);
      if err_and err notFileNotFound is Some err then
        mret (Some (Errorf "unable to read existing unit file %q for %q: %w" [unitFilePath; Name (unit_ unit)] err)) else
      let newUnitContent := list_byte_of_string content in
      err ← (if negb (bytes_Equal newUnitContent oldUnitContent) then
               err ← invoke (FSWriteFile unitFilePath newUnitContent defaultFilePermissions)
                            (FS_WriteFile unitFilePath newUnitContent defaultFilePermissions);
               if err is Some err then
                 mret (Some (Errorf "unable to write unit file %q for %q: %w" [unitFilePath; Name (unit_ unit)] err)) else
               _ ← log_Info "Successfully applied new or changed unit file" [LStr "path"; LStr unitFilePath];
               mret None
             else mret None);
      if err is Some err then mret (Some err) else
      (* ensure file permissions are restored in case somebody changed them manually *)
      err ← invoke (FSChmod unitFilePath defaultFilePermissions) (FS_Chmod unitFilePath defaultFilePermissions);
      if err is Some err then
        mret (Some (Errorf "unable to ensure permissions for unit file %q for %q: %w" [unitFilePath; Name (unit_ unit)] err)) else
      mret None
  end.

(** Lines 256-276: one round of the loop over [unit.dropIns.changed]. *)
Definition applyChangedDropIn (unit : changedUnit) (unitFilePath dropInDirectory : string)
    (dropIn : DropIn) : M (option error) :=
  let dropInFilePath := path_Join [dropInDirectory; DropInName dropIn] in
  '(oldDropInContent, err) ← invoke_with (FSReadFile dropInFilePath) (FS_ReadFile dropInFilePath);
  if err_and err notFileNotFound is Some err then
    mret (Some (Errorf "unable to read existing drop-in file %q for unit %q: %w" [dropInFilePath; Name (unit_ unit)] err)) else
  let newDropInContent := list_byte_of_string (DropInContent dropIn) in
  err ← (if negb (bytes_Equal newDropInContent oldDropInContent) then
           err ← invoke (FSWriteFile dropInFilePath newDropInContent defaultFilePermissions)
                        (FS_WriteFile dropInFilePath newDropInContent defaultFilePermissions);
           if err is Some err then
             mret (Some (Errorf "unable to write drop-in file %q for unit %q: %w" [dropInFilePath; Name (unit_ unit)] err)) else
           _ ← log_Info "Successfully applied new or changed drop-in file for unit"
                        [LStr "path"; LStr dropInFilePath; LStr "unit"; LStr (Name (unit_ unit))];
           mret None
         else mret None);
  if err is Some err then mret (Some err) else
  (* ensure file permissions are restored in case somebody changed them manually *)
  err ← invoke (FSChmod dropInFilePath defaultFilePermissions) (FS_Chmod dropInFilePath defaultFilePermissions);
  if err is Some err then
    mret (Some (Errorf "unable to ensure permissions for drop-in file %q for unit %q: %w" [unitFilePath; Name (unit_ unit)] err)) else
  mret None.

(** Lines 278-284: one round of the loop over [unit.dropIns.deleted]. *)
Definition removeDeletedDropIn (unit : changedUnit) (dropInDirectory : string)
    (dropIn : DropIn) : M (option error) :=
  let dropInFilePath := path_Join [dropInDirectory; DropInName dropIn] in
  err ← invoke (FSRemove dropInFilePath) (FS_Remove dropInFilePath);
  if err_and err notFileNotFound is Some err then
    mret (Some (Errorf "unable to delete drop-in file %q for unit %q: %w" [dropInFilePath; Name (unit_ unit)] err)) else
  _ ← log_Info "Successfully removed no longer needed drop-in file for unit"
               [LStr "path"; LStr dropInFilePath; LStr "unitName"; LStr (Name (unit_ unit))];
  mret None.

(** Lines 245-285: the drop-in directory of the unit. *)
Definition applyDropIns (unit : changedUnit) (unitFilePath : string) : M (option error) :=
  let dropInDirectory := unitFilePath +:+ ".d" in
  if decide (length (DropIns (unit_ unit)) = 0%nat) then
    err ← invoke (FSRemoveAll dropInDirectory) (FS_RemoveAll dropInDirectory);
    if err_and err notFileNotFound is Some err then
      mret (Some (Errorf "unable to delete systemd drop-in folder for unit %q: %w" [Name (unit_ unit)] err)) else
    mret None
  else
    err ← invoke (FSMkdirAll dropInDirectory fs_ModeDir) (FS_MkdirAll dropInDirectory fs_ModeDir);
    if err is Some err then
      mret (Some (Errorf "unable to create drop-in directory %q for unit %q: %w" [dropInDirectory; Name (unit_ unit)] err)) else
    err ← range (dropIns_changed (unit_dropIns unit)) (applyChangedDropIn unit unitFilePath dropInDirectory);
    if err is Some err then mret (Some err) else
    range (dropIns_deleted (unit_dropIns unit)) (removeDeletedDropIn unit dropInDirectory).

(** Lines 287-297: registering the enablement. *)
Definition applyEnablement (unit : changedUnit) : M (option error) :=
  if pointer_BoolDeref (Enable (unit_ unit)) true then
    err ← invoke (DBusEnable (Name (unit_ unit))) (DBus_Enable (Name (unit_ unit)));
    if err is Some err then mret (Some (Errorf "unable to enable unit %q: %w" [Name (unit_ unit)] err)) else
    _ ← log_Info "Successfully enabled unit" [LStr "unitName"; LStr (Name (unit_ unit))];
    mret None
  else
    err ← invoke (DBusDisable (Name (unit_ unit))) (DBus_Disable (Name (unit_ unit)));
    if err is Some err then mret (Some (Errorf "unable to disable unit %q: %w" [Name (unit_ unit)] err)) else
    _ ← log_Info "Successfully disabled unit" [LStr "unitName"; LStr (Name (unit_ unit))];
    mret None.

Definition applyChangedUnits_body (unit : changedUnit) : M (option error) :=
  let unitFilePath := path_Join [etcSystemdSystem; Name (unit_ unit)] in
  err ← applyUnitFile unit unitFilePath;
  if err is Some err then mret (Some err) else
  err ← applyDropIns unit unitFilePath;
  if err is Some err then mret (Some err) else
  applyEnablement unit.

Definition applyChangedUnits (units : list changedUnit) : M (option error) :=
  range units applyChangedUnits_body.

(** *** removeDeletedUnits *)

Definition removeDeletedUnits_body (node : option Node) (unit : Unit) : M (option error) :=
  err ← invoke (DBusDisable (Name unit)) (DBus_Disable (Name unit));
  if err is Some err then mret (Some (Errorf "unable to disable deleted unit %q: %w" [Name unit] err)) else
  err ← invoke (DBusStop (Name unit)) (DBus_Stop node (Name unit));
  if err is Some err then mret (Some (Errorf "unable to stop deleted unit %q: %w" [Name unit] err)) else
  err ← invoke (FSRemove (path_Join [etcSystemdSystem; Name unit]))
               (FS_Remove (path_Join [etcSystemdSystem; Name unit]));
  if err_and err notFileNotFound is Some err then
    mret (Some (Errorf "unable to delete systemd unit file of deleted unit %q: %w" [Name unit] err)) else
  err ← invoke (FSRemoveAll (path_Join [etcSystemdSystem; Name unit +:+ ".d"]))
               (FS_RemoveAll (path_Join [etcSystemdSystem; Name unit +:+ ".d"]));
  if err_and err notFileNotFound is Some err then
    mret (Some (Errorf "unable to delete systemd drop-in folder of deleted unit %q: %w" [Name unit] err)) else
  _ ← log_Info "Successfully removed no longer needed unit" [LStr "unitName"; LStr (Name unit)];
  mret None.

Definition removeDeletedUnits (node : option Node) (units : list Unit) : M (option error) :=
  range units (removeDeletedUnits_body node).

(** *** executeUnitCommands *)

Definition TaskFn := M (option error).

(** Modelled from the spec: [flow.Parallel] ([pkg/utils/flow]) is not among the
    sources at hand.  Section 5: "The fan-out join waits for all tasks
    regardless of individual failure, then reports the first error (or
    none)."  [join] runs the tasks in the order they got to run.  A task of
    the unit-command phase makes one call, so the orders of the tasks are the
    interleavings of the calls. *)
Fixpoint join (fns : list TaskFn) : M (option error) :=
  match fns with
  | [] => mret None
  | fn :: fns' =>
      err ← fn;
      rest ← join fns';
      mret (if err is Some e then Some e else rest)
  end.

Definition flow_Parallel (fns : list TaskFn) : M (option error) :=
  join (schedule picks fns).

(** The closure appended to [fns] for one unit. *)
Definition executeUnitCommands_fn (node : option Node) (unit : changedUnit) : TaskFn :=
  if negb (pointer_BoolDeref (Enable (unit_ unit)) true)
     || (if Command (unit_ unit) is Some c then bool_decide (c = CommandStop) else false) then
    err ← invoke (DBusStop (Name (unit_ unit))) (DBus_Stop node (Name (unit_ unit)));
    if err is Some err then mret (Some (Errorf "unable to stop unit %q: %w" [Name (unit_ unit)] err)) else
    _ ← log_Info "Successfully stopped unit" [LStr "unitName"; LStr (Name (unit_ unit))];
    mret None
  else
    err ← invoke (DBusRestart (Name (unit_ unit))) (DBus_Restart node (Name (unit_ unit)));
    if err is Some err then mret (Some (Errorf "unable to restart unit %q: %w" [Name (unit_ unit)] err)) else
    _ ← log_Info "Successfully restarted unit" [LStr "unitName"; LStr (Name (unit_ unit))];
    mret None.

Definition executeUnitCommands (node : option Node) (units : list changedUnit) : M (option error) :=
  let fns := map (executeUnitCommands_fn node) units in
  flow_Parallel fns.

(** *** Reconcile *)

Definition Reconcile (request : Request) : M (Result * option error) :=
  '(secret, err) ← invoke_with (ClientGetSecret (RequestNamespacedName request))
                               (Client_GetSecret (RequestNamespacedName request));
  match err with
  | Some err =>
      if apierrors_IsNotFound err then
        _ ← log_V1_Info "Object is gone, stop reconciling" [];
        mret (Result_zero, None)
      else mret (Result_zero, Some (Errorf "error retrieving object from store: %w" [] err))
  | None =>
  '(fetched, err) ← invoke_with (ClientGetNode (NodeName r)) (Client_GetNode (NodeName r));
  if err_and err (λ e, negb (apierrors_IsNotFound e)) is Some err then
    mret (Result_zero, Some (Errorf "unable to fetch node %q: %w" [NodeName r] err)) else
  let node : option Node := if err is Some _ then None else Some fetched in

  match extractOSCFromSecret secret with
  | inr err => mret (Result_zero, Some err)
  | inl (osc, oscRaw, oscChecksum) =>

  oscChanges ← inspect (λ w, computeOperatingSystemConfigChanges w osc);
  match oscChanges with
  | inr err => mret (Result_zero, Some (Errorf "unable to calculate the OSC changes: %w" [] err))
  | inl oscChanges =>

  if (if node is Some n then bool_decide (annotation n AnnotationKeyChecksum = oscChecksum) else false) then
    _ ← log_Info "Configuration on this node is up to date, nothing to be done" [];
    mret (Result_zero, None)
  else

  _ ← log_Info "Applying new or changed files" [];
  err ← applyChangedFiles (files_changed (changes_files oscChanges));
  if err is Some err then mret (Result_zero, Some (Errorf "failed applying changed files: %w" [] err)) else

  _ ← log_Info "Applying new or changed units" [];
  err ← applyChangedUnits (units_changed (changes_units oscChanges));
  if err is Some err then mret (Result_zero, Some (Errorf "failed applying changed units: %w" [] err)) else

  _ ← log_Info "Removing no longer needed units" [];
  err ← removeDeletedUnits node (units_deleted (changes_units oscChanges));
  if err is Some err then mret (Result_zero, Some (Errorf "failed removing deleted units: %w" [] err)) else

  _ ← log_Info "Reloading systemd daemon" [];
  err ← invoke DBusDaemonReload DBus_DaemonReload;
  if err is Some err then mret (Result_zero, Some (Errorf "failed reloading systemd daemon: %w" [] err)) else

  _ ← log_Info "Executing unit commands (start/stop)" [];
  err ← executeUnitCommands node (units_changed (changes_units oscChanges));
  if err is Some err then mret (Result_zero, Some (Errorf "failed executing unit commands: %w" [] err)) else

  _ ← log_Info "Removing no longer needed files" [];
  err ← removeDeletedFiles (files_deleted (changes_files oscChanges));
  if err is Some err then mret (Result_zero, Some (Errorf "failed removing deleted files: %w" [] err)) else

  _ ← log_Info "Successfully applied operating system config"
        [LStr "changedFiles"; LInt (length (files_changed (changes_files oscChanges)));
         LStr "deletedFiles"; LInt (length (files_deleted (changes_files oscChanges)));
         LStr "changedUnits"; LInt (length (units_changed (changes_units oscChanges)));
         LStr "deletedUnits"; LInt (length (units_deleted (changes_units oscChanges)))];

  _ ← log_Info "Persisting current operating system config as 'last-applied' file to the disk"
        [LStr "path"; LStr lastAppliedOperatingSystemConfigFilePath];
  err ← invoke (FSWriteFile lastAppliedOperatingSystemConfigFilePath oscRaw (octal [6; 4; 4]))
               (FS_WriteFile lastAppliedOperatingSystemConfigFilePath oscRaw (octal [6; 4; 4]));
  if err is Some err then
    mret (Result_zero, Some (Errorf "unable to write current OSC to file path %q: %w"
                                    [lastAppliedOperatingSystemConfigFilePath] err)) else

  match node with
  | None =>
      _ ← log_Info "Waiting for Node to get registered by kubelet, requeuing" [];
      mret ({| Requeue := false; RequeueAfter := 5 * time_Second |}, None)
  | Some node =>
      _ ← emit (Recorded EventTypeNormal "OSCApplied" "Operating system config has been applied successfully");
      let patchBase := node in                                        (* node.DeepCopy() *)
      let node := metav1_SetMetaDataAnnotation node LabelWorkerKubernetesVersion (Config_KubernetesVersion r) in
      let node := metav1_SetMetaDataAnnotation node AnnotationKeyChecksum oscChecksum in
      err ← invoke (ClientPatch node patchBase) (Client_Patch node patchBase);
      mret ({| Requeue := false; RequeueAfter := Config_SyncPeriod r |}, err)
  end
  end end end.

(** ** Running a computation *)

Definition result {A} (m : M A) (w : W) : A := (m w).1.1.
Definition final {A} (m : M A) (w : W) : W := (m w).1.2.
Definition trace {A} (m : M A) (w : W) : list event := (m w).2.

(** ** Vocabulary of the statements *)

(** The calls of a trace, in order. *)
Definition calls (t : list event) : list call :=
  omap (λ ev, if ev is Called c _ then Some c else None) t.

Definition is_reload (ev : event) : bool :=
  if ev is Called DBusDaemonReload _ then true else false.

(** How often the pass reloaded the service manager. *)
Definition reloads (t : list event) : nat := length (List.filter is_reload t).

(** A call that changes the file system or talks to the service manager. *)
Definition touches_machine (ev : event) : bool :=
  match ev with
  | Called (ClientGetSecret _) _ | Called (ClientGetNode _) _ | Called (ClientPatch _ _) _
  | Called (FSReadFile _) _ => false
  | Called _ _ => true
  | _ => false
  end.

Definition is_patch (ev : event) : bool :=
  if ev is Called (ClientPatch _ _) _ then true else false.

(** The mode a call of the trace gives to a file. *)
Definition mode_of (ev : event) : option FileMode :=
  match ev with
  | Called (FSWriteFile _ _ perm) _ | Called (FSChmod _ perm) _ => Some perm
  | _ => None
  end.

(** The permission bits a managed file asks for. *)
Definition resolved_permissions (file : File) : FileMode :=
  match Permissions file with
  | Some p => fs_FileMode p
  | None => octal [6; 0; 0]
  end.

(** A deletion answered "no such file" counts as done. *)
Definition tolerated (err : option error) : Prop :=
  match err with
  | Some e => errors_Is e ErrFileNotFound = true
  | None => True
  end.

(** An event that lets a deleting loop go on: a removal that succeeded or found
    nothing, any other call that succeeded. *)
Definition deletion_ok (ev : event) : Prop :=
  match ev with
  | Called (FSRemove _) err | Called (FSRemoveAll _) err => tolerated err
  | Called _ (Some _) => False
  | _ => True
  end.

(** The unit is to be stopped: it is disabled or its command is Stop. *)
Definition stop_wanted (unit : changedUnit) : Prop :=
  Enable (unit_ unit) = Some false ∨ Command (unit_ unit) = Some CommandStop.

(** The one command a changed unit is to receive. *)
Definition wanted_command (unit : changedUnit) : call :=
  if decide (stop_wanted unit) then DBusStop (Name (unit_ unit)) else DBusRestart (Name (unit_ unit)).

(** The error of the first command of a trace that failed, as the task that
    issued it reports it. *)
Fixpoint first_failure (t : list event) : option error :=
  match t with
  | [] => None
  | Called (DBusStop n) (Some e) :: _ => Some (Errorf "unable to stop unit %q: %w" [n] e)
  | Called (DBusRestart n) (Some e) :: _ => Some (Errorf "unable to restart unit %q: %w" [n] e)
  | _ :: t' => first_failure t'
  end.

Definition command_succeeded (ev : event) : Prop :=
  if ev is Called _ (Some _) then False else True.

(** The events each phase may leave in the trace. *)
Definition of_write_files (ev : event) : bool :=
  match ev with
  | Called (FSTempDir _ _) _ | Called (FSMkdirAll _ _) _ | Called (FSWriteFile _ _ _) _
  | Called (FSRename _ _) _ | Called (FSRemoveAll _) _ | Logged _ _ _ => true
  | _ => false
  end.

Definition of_write_units (ev : event) : bool :=
  match ev with
  | Called (FSReadFile _) _ | Called (FSWriteFile _ _ _) _ | Called (FSChmod _ _) _
  | Called (FSMkdirAll _ _) _ | Called (FSRemove _) _ | Called (FSRemoveAll _) _
  | Called (DBusEnable _) _ | Called (DBusDisable _) _ | Logged _ _ _ => true
  | _ => false
  end.

Definition of_delete_units (ev : event) : bool :=
  match ev with
  | Called (DBusDisable _) _ | Called (DBusStop _) _
  | Called (FSRemove _) _ | Called (FSRemoveAll _) _ | Logged _ _ _ => true
  | _ => false
  end.

Definition of_unit_commands (ev : event) : bool :=
  match ev with
  | Called (DBusStop _) _ | Called (DBusRestart _) _ | Logged _ _ _ => true
  | _ => false
  end.

Definition of_delete_files (ev : event) : bool :=
  match ev with
  | Called (FSRemove _) _ | Logged _ _ _ => true
  | _ => false
  end.

(** A phase of the apply engine: the line that announces it, the format that
    wraps its error, what it does, and the events it may leave. *)
Record phase := {
  announced : string;
  failure : string;
  action : M (option error);
  leaves : event → bool }.

(** The six phases, in the order section 4.2 gives them. *)
Definition six_phases (node : option Node) (oscChanges : operatingSystemConfigChanges) : list phase :=
  [ {| announced := "Applying new or changed files";
       failure := "failed applying changed files: %w";
       action := applyChangedFiles (files_changed (changes_files oscChanges));
       leaves := of_write_files |};
    {| announced := "Applying new or changed units";
       failure := "failed applying changed units: %w";
       action := applyChangedUnits (units_changed (changes_units oscChanges));
       leaves := of_write_units |};
    {| announced := "Removing no longer needed units";
       failure := "failed removing deleted units: %w";
       action := removeDeletedUnits node (units_deleted (changes_units oscChanges));
       leaves := of_delete_units |};
    {| announced := "Reloading systemd daemon";
       failure := "failed reloading systemd daemon: %w";
       action := invoke DBusDaemonReload DBus_DaemonReload;
       leaves := is_reload |};
    {| announced := "Executing unit commands (start/stop)";
       failure := "failed executing unit commands: %w";
       action := executeUnitCommands node (units_changed (changes_units oscChanges));
       leaves := of_unit_commands |};
    {| announced := "Removing no longer needed files";
       failure := "failed removing deleted files: %w";
       action := removeDeletedFiles (files_deleted (changes_files oscChanges));
       leaves := of_delete_files |} ].

(** [in_order ps w t w' out]: from [w], the phases [ps] ran strictly one after
    the other, each to its end before the next was announced, none after one
    that failed; they left the trace [t] and the machine [w'], and [out] is
    the wrapped error of the phase that failed, if one did. *)
Inductive in_order : list phase → W → list event → W → option error → Prop :=
| in_order_done w :
    in_order [] w [] w None
| in_order_failed p ps w e :
    result (action p) w = Some e →
    Forall (λ ev, leaves p ev = true) (trace (action p) w) →
    in_order (p :: ps) w (Logged 0 (announced p) [] :: trace (action p) w)
             (final (action p) w) (Some (Errorf (failure p) [] e))
| in_order_next p ps w t w' out :
    result (action p) w = None →
    Forall (λ ev, leaves p ev = true) (trace (action p) w) →
    in_order ps (final (action p) w) t w' out →
    in_order (p :: ps) w (Logged 0 (announced p) [] :: trace (action p) w ++ t) w' out.

(** The phases as one computation: announce, act, stop at the first error. *)
Fixpoint run_phases (ps : list phase) : M (option error) :=
  match ps with
  | [] => mret None
  | p :: ps' =>
      _ ← log_Info (announced p) [];
      err ← action p;
      if err is Some e then mret (Some (Errorf (failure p) [] e)) else run_phases ps'
  end.

(** One phase in front of the rest of a pass. *)
Definition phase_then (p : phase) (rest : M (Result * option error)) : M (Result * option error) :=
  _ ← log_Info (announced p) [];
  err ← action p;
  if err is Some e then mret (Result_zero, Some (Errorf (failure p) [] e)) else rest.

(** Lines 69-106 got as far as the apply engine: secret and change set are at
    hand, the node is known or known to be missing. *)
Definition reaches_gate (request : Request) (w : W) (node : option Node) (oscRaw : list byte)
    (oscChecksum : string) (oscChanges : operatingSystemConfigChanges + error)
    (w' : W) (t : list event) : Prop :=
  ∃ secret w1 fetched nerr osc,
    Client_GetSecret (RequestNamespacedName request) w = ((secret, None), w1) ∧
    Client_GetNode (NodeName r) w1 = ((fetched, nerr), w') ∧
    err_and nerr (λ e, negb (apierrors_IsNotFound e)) = None ∧
    node = (if nerr is Some _ then None else Some fetched) ∧
    extractOSCFromSecret secret = inl (osc, oscRaw, oscChecksum) ∧
    oscChanges = computeOperatingSystemConfigChanges w' osc ∧
    t = [Called (ClientGetSecret (RequestNamespacedName request)) None;
         Called (ClientGetNode (NodeName r)) nerr].

(** The convergence gate of line 103. *)
Definition up_to_date (node : option Node) (oscChecksum : string) : bool :=
  if node is Some n then bool_decide (annotation n AnnotationKeyChecksum = oscChecksum) else false.

(** Lines 138-160: what a pass goes on to do once the six phases are through. *)
Definition persist (node : option Node) (oscRaw : list byte) (oscChecksum : string)
    (oscChanges : operatingSystemConfigChanges) : M (Result * option error) :=
  _ ← log_Info "Successfully applied operating system config"
        [LStr "changedFiles"; LInt (length (files_changed (changes_files oscChanges)));
         LStr "deletedFiles"; LInt (length (files_deleted (changes_files oscChanges)));
         LStr "changedUnits"; LInt (length (units_changed (changes_units oscChanges)));
         LStr "deletedUnits"; LInt (length (units_deleted (changes_units oscChanges)))];
  _ ← log_Info "Persisting current operating system config as 'last-applied' file to the disk"
        [LStr "path"; LStr lastAppliedOperatingSystemConfigFilePath];
  err ← invoke (FSWriteFile lastAppliedOperatingSystemConfigFilePath oscRaw (octal [6; 4; 4]))
               (FS_WriteFile lastAppliedOperatingSystemConfigFilePath oscRaw (octal [6; 4; 4]));
  if err is Some err then
    mret (Result_zero, Some (Errorf "unable to write current OSC to file path %q: %w"
                                    [lastAppliedOperatingSystemConfigFilePath] err)) else
  match node with
  | None =>
      _ ← log_Info "Waiting for Node to get registered by kubelet, requeuing" [];
      mret ({| Requeue := false; RequeueAfter := 5 * time_Second |}, None)
  | Some node =>
      _ ← emit (Recorded EventTypeNormal "OSCApplied" "Operating system config has been applied successfully");
      err ← invoke (ClientPatch
                      (metav1_SetMetaDataAnnotation
                         (metav1_SetMetaDataAnnotation node LabelWorkerKubernetesVersion (Config_KubernetesVersion r))
                         AnnotationKeyChecksum oscChecksum) node)
                   (Client_Patch
                      (metav1_SetMetaDataAnnotation
                         (metav1_SetMetaDataAnnotation node LabelWorkerKubernetesVersion (Config_KubernetesVersion r))
                         AnnotationKeyChecksum oscChecksum) node);
      mret ({| Requeue := false; RequeueAfter := Config_SyncPeriod r |}, err)
  end.

(** What has to have happened before a call of the delete-units phase. *)
Inductive prerequisite : event → event → Prop :=
| disabled_before_stopped n err :
    prerequisite (Called (DBusDisable n) None) (Called (DBusStop n) err)
| stopped_before_file_removed n err :
    prerequisite (Called (DBusStop n) None)
                 (Called (FSRemove (path_Join [etcSystemdSystem; n])) err)
| stopped_before_dropins_removed n err :
    prerequisite (Called (DBusStop n) None)
                 (Called (FSRemoveAll (path_Join [etcSystemdSystem; n +:+ ".d"])) err).

(** Every stop and every removal of the trace comes after its prerequisite. *)
Definition in_due_order (t : list event) : Prop :=
  ∀ i c err, t !! i = Some (Called c err) →
    (∃ n, c = DBusStop n) ∨ (∃ p, c = FSRemove p) ∨ (∃ p, c = FSRemoveAll p) →
    ∃ j ev, (j < i)%nat ∧ t !! j = Some ev ∧ prerequisite ev (Called c err).

(** Whatever the changed-units phase writes or re-modes gets the default mode. *)
Definition unit_event (ev : event) : Prop :=
  of_write_units ev = true ∧ ∀ perm, mode_of ev = Some perm → perm = defaultFilePermissions.

Lemma run_eta {A} (m : M A) w : m w = (result m w, final m w, trace m w).
Proof. unfold result, final, trace. by destruct (m w) as [[??]?]. Qed.

Lemma result_bind {A B} (m : M A) (k : A → M B) w :
  result (m ≫= k) w = result (k (result m w)) (final m w).
Proof.
  unfold result, final, mbind, M_bind.
  destruct (m w) as [[a w1] t1]; simpl. by destruct (k a w1) as [[??]?].
Qed.

Lemma final_bind {A B} (m : M A) (k : A → M B) w :
  final (m ≫= k) w = final (k (result m w)) (final m w).
Proof.
  unfold result, final, mbind, M_bind.
  destruct (m w) as [[a w1] t1]; simpl. by destruct (k a w1) as [[??]?].
Qed.

Lemma trace_bind {A B} (m : M A) (k : A → M B) w :
  trace (m ≫= k) w = trace m w ++ trace (k (result m w)) (final m w).
Proof.
  unfold result, final, trace, mbind, M_bind.
  destruct (m w) as [[a w1] t1]; simpl. by destruct (k a w1) as [[??]?].
Qed.

Lemma result_ret {A} (a : A) w : result (mret a) w = a.
Proof. done. Qed.
Lemma final_ret {A} (a : A) w : final (mret a : M A) w = w.
Proof. done. Qed.
Lemma trace_ret {A} (a : A) w : trace (mret a : M A) w = [].
Proof. done. Qed.

Lemma result_invoke c f w : result (invoke c f) w = (f w).1.
Proof. unfold result, invoke. by destruct (f w). Qed.
Lemma final_invoke c f w : final (invoke c f) w = (f w).2.
Proof. unfold final, invoke. by destruct (f w). Qed.
Lemma trace_invoke c f w : trace (invoke c f) w = [Called c (f w).1].
Proof. unfold trace, invoke. by destruct (f w). Qed.

Lemma result_invoke_with {A} c (f : W → (A * option error) * W) w :
  result (invoke_with c f) w = (f w).1.
Proof. unfold result, invoke_with. by destruct (f w) as [[??]?]. Qed.
Lemma final_invoke_with {A} c (f : W → (A * option error) * W) w :
  final (invoke_with c f) w = (f w).2.
Proof. unfold final, invoke_with. by destruct (f w) as [[??]?]. Qed.
Lemma trace_invoke_with {A} c (f : W → (A * option error) * W) w :
  trace (invoke_with c f) w = [Called c (f w).1.2].
Proof. unfold trace, invoke_with. by destruct (f w) as [[??]?]. Qed.

Lemma result_inspect {A} (f : W → A) w : result (inspect f) w = f w.
Proof. done. Qed.
Lemma final_inspect {A} (f : W → A) w : final (inspect f) w = w.
Proof. done. Qed.
Lemma trace_inspect {A} (f : W → A) w : trace (inspect f) w = [].
Proof. done. Qed.
Lemma trace_emit ev w : trace (emit ev) w = [ev].
Proof. done. Qed.
Lemma final_emit ev w : final (emit ev) w = w.
Proof. done. Qed.

Lemma trace_log_Info msg kv w : trace (log_Info msg kv) w = [Logged 0 msg kv].
Proof. done. Qed.
Lemma final_log_Info msg kv w : final (log_Info msg kv) w = w.
Proof. done. Qed.

(** ** Stepping through a computation *)

(** Section variables a statement does not mention are put out of the way of
    its proof. *)
Ltac unmentioned := repeat match goal with H : _ |- _ => clear H end.

Create Rewrite HintDb run.
Hint Rewrite @result_bind @final_bind @trace_bind @result_ret @final_ret @trace_ret
  result_invoke final_invoke trace_invoke
  @result_invoke_with @final_invoke_with @trace_invoke_with
  trace_log_Info final_log_Info @result_inspect @final_inspect @trace_inspect
  trace_emit final_emit : run.

Ltac run_case :=
  match goal with
  | |- context [match ?x with Some _ => _ | None => _ end] => destruct x eqn:?
  | |- context [match ?x with inl _ => _ | inr _ => _ end] => destruct x eqn:?
  | |- context [let '(_, _) := ?x in _] => destruct x eqn:?
  | |- context [if ?b then _ else _] => destruct b eqn:?
  end.

(** The texts of messages play no part in the steps: they are put aside. *)
Ltac hide_strings :=
  repeat match goal with
         | |- context [String ?a ?s] =>
             let msg := fresh "msg" in set (msg := String a s) in *; clearbody msg
         end.

Ltac run_steps := repeat (autorewrite with run; cbn [fst snd app]; try run_case).
Ltac run := hide_strings; run_steps.

(** *** Loops *)

Lemma range_Forall {A} (P : event → Prop) (body : A → M (option error)) l :
  (∀ x w, Forall P (trace (body x) w)) →
  ∀ w, Forall P (trace (range l body) w).
Proof.
  intros Hbody. induction l as [|x l IH]; intros w; cbn [range].
  - constructor.
  - rewrite trace_bind. apply Forall_app. split; [apply Hbody|].
    destruct (result (body x) w); [constructor | apply IH].
Qed.

(** A loop ends without error exactly when every round does. *)
Lemma range_None_iff {A} (P : event → Prop) (body : A → M (option error)) l :
  (∀ x w, result (body x) w = None ↔ Forall P (trace (body x) w)) →
  ∀ w, result (range l body) w = None ↔ Forall P (trace (range l body) w).
Proof. unmentioned.
  intros Hbody. induction l as [|x l IH]; intros w; cbn [range].
  - split; [constructor | done].
  - rewrite result_bind, trace_bind, Forall_app.
    destruct (result (body x) w) eqn:Hx.
    + rewrite result_ret. split; [done|]. intros [Ht _]. apply Hbody in Ht. congruence.
    + rewrite <- IH. split; [|tauto]. intros. split; [by apply Hbody | done].
Qed.

(** *** What each phase leaves in the trace *)

Lemma applyChangedFiles_leaves files w :
  Forall (λ ev, of_write_files ev = true) (trace (applyChangedFiles files) w).
Proof.
  unfold applyChangedFiles. run; repeat constructor.
  apply Forall_app. split; [|by repeat constructor].
  apply range_Forall. clear. intros file w. unfold applyChangedFiles_body.
  run; by repeat constructor.
Qed.

Ltac forall_events :=
  repeat first
    [ apply Forall_nil_2
    | apply Forall_cons_2; [by (try split; [done | cbn; intros; simplify_eq]) |]
    | apply Forall_app_2
    | apply range_Forall; intros ].

Lemma applyUnitFile_events unit p w : Forall unit_event (trace (applyUnitFile unit p) w).
Proof. unfold applyUnitFile. run; forall_events. Qed.

Lemma applyChangedDropIn_events unit p dir dropIn w :
  Forall unit_event (trace (applyChangedDropIn unit p dir dropIn) w).
Proof. unfold applyChangedDropIn. run; forall_events. Qed.

Lemma removeDeletedDropIn_events unit dir dropIn w :
  Forall unit_event (trace (removeDeletedDropIn unit dir dropIn) w).
Proof. unfold removeDeletedDropIn. run; forall_events. Qed.

Lemma applyDropIns_events unit p w : Forall unit_event (trace (applyDropIns unit p) w).
Proof.
  unfold applyDropIns. run; forall_events;
    auto using applyChangedDropIn_events, removeDeletedDropIn_events.
Qed.

Lemma applyEnablement_events unit w : Forall unit_event (trace (applyEnablement unit) w).
Proof. unfold applyEnablement. run; forall_events. Qed.

Lemma applyChangedUnits_events units w : Forall unit_event (trace (applyChangedUnits units) w).
Proof.
  apply range_Forall. clear. intros unit w. unfold applyChangedUnits_body.
  run; forall_events; auto using applyUnitFile_events, applyDropIns_events, applyEnablement_events.
Qed.

Lemma applyChangedUnits_leaves units w :
  Forall (λ ev, of_write_units ev = true) (trace (applyChangedUnits units) w).
Proof. eapply Forall_impl; [apply applyChangedUnits_events|]. by intros ? [? _]. Qed.

Lemma removeDeletedUnits_leaves node units w :
  Forall (λ ev, of_delete_units ev = true) (trace (removeDeletedUnits node units) w).
Proof.
  apply range_Forall. clear. intros unit w. unfold removeDeletedUnits_body.
  run; by repeat constructor.
Qed.

Lemma removeDeletedFiles_leaves files w :
  Forall (λ ev, of_delete_files ev = true) (trace (removeDeletedFiles files) w).
Proof.
  apply range_Forall. clear. intros file w. unfold removeDeletedFiles_body.
  run; by repeat constructor.
Qed.

(** *** The fan-out of the unit commands *)

Lemma insert_at_Permutation {A} k (x : A) l : insert_at k x l ≡ₚ x :: l.
Proof.
  unfold insert_at. rewrite <- Permutation_middle. by rewrite take_drop.
Qed.

Lemma schedule_Permutation {A} ps (l : list A) : schedule ps l ≡ₚ l.
Proof.
  revert ps. induction l as [|x l IH]; intros ps; cbn [schedule]; [done|].
  by rewrite insert_at_Permutation, IH.
Qed.

Lemma schedule_length {A} ps (l : list A) : length (schedule ps l) = length l.
Proof. apply Permutation_length, schedule_Permutation. Qed.

(** Every order of the tasks is one the scheduler can pick. *)
Lemma schedule_complete {A} (l l' : list A) : l' ≡ₚ l → ∃ ps, schedule ps l = l'.
Proof.
  revert l'. induction l as [|x l IH]; intros l' Hperm.
  - exists []. by apply Permutation_nil_r in Hperm as ->.
  - apply Permutation_cons_inv_r in Hperm as (l1 & l2 & -> & Hperm).
    destruct (IH (l1 ++ l2)) as [ps Hps]; [done|].
    exists (length l1 :: ps). cbn [schedule hd tl]. rewrite Hps. unfold insert_at.
    assert (length l1 < S (length l))%nat as Hlt.
    { rewrite Hperm, length_app. lia. }
    by rewrite Nat.mod_small, take_app_length, drop_app_length.
Qed.

(** The scheduler orders the tasks, whatever they are. *)
Lemma schedule_map {A B} (f : A → B) ps l : schedule ps (map f l) = map f (schedule ps l).
Proof.
  revert ps. induction l as [|x l IH]; intros ps; cbn [schedule map]; [done|].
  rewrite IH, length_map. unfold insert_at.
  by rewrite map_app, <- !fmap_take, <- !fmap_drop.
Qed.

Lemma calls_app t1 t2 : calls (t1 ++ t2) = calls t1 ++ calls t2.
Proof. unfold calls. apply omap_app. Qed.

Lemma first_failure_app t1 t2 :
  first_failure (t1 ++ t2) = if first_failure t1 is Some e then Some e else first_failure t2.
Proof.
  induction t1 as [|ev t1 IH]; [done|].
  destruct ev as [c [e|]| |]; cbn [app first_failure]; try done; by destruct c.
Qed.

Lemma first_failure_None t :
  Forall (λ ev, of_unit_commands ev = true) t →
  first_failure t = None ↔ Forall command_succeeded t.
Proof. unmentioned.
  induction 1 as [|ev t Hev _ IH].
  - split; [constructor | done].
  - rewrite Forall_cons, <- IH.
    destruct ev as [c [e|]| |]; cbn; try tauto; destruct c; cbn in *; try done.
    all: split; [done || (by split) | by intros []].
Qed.

(** The condition of line 334 says that the unit is to be stopped. *)
Lemma stop_condition unit :
  negb (pointer_BoolDeref (Enable (unit_ unit)) true)
  || (if Command (unit_ unit) is Some c then bool_decide (c = CommandStop) else false) = true
  ↔ stop_wanted unit.
Proof.
  unfold stop_wanted.
  destruct (Enable (unit_ unit)) as [[]|], (Command (unit_ unit)) as [[]|]; cbn;
    (split; [intros; (by left) || (by right) || done | by intros [|]]).
Qed.

(** One task: one command, the wanted one, and its error reported. *)
Lemma executeUnitCommands_fn_run node unit w :
  calls (trace (executeUnitCommands_fn node unit) w) = [wanted_command unit]
  ∧ result (executeUnitCommands_fn node unit) w = first_failure (trace (executeUnitCommands_fn node unit) w)
  ∧ Forall (λ ev, of_unit_commands ev = true) (trace (executeUnitCommands_fn node unit) w).
Proof.
  unfold executeUnitCommands_fn, wanted_command.
  destruct (decide (stop_wanted unit)) as [Hs|Hs]; rewrite <- stop_condition in Hs.
  - rewrite Hs. run_steps; by repeat constructor.
  - apply not_true_is_false in Hs. rewrite Hs. run_steps; by repeat constructor.
Qed.

Lemma join_run node us w :
  calls (trace (join (map (executeUnitCommands_fn node) us)) w) = map wanted_command us
  ∧ result (join (map (executeUnitCommands_fn node) us)) w
    = first_failure (trace (join (map (executeUnitCommands_fn node) us)) w)
  ∧ Forall (λ ev, of_unit_commands ev = true) (trace (join (map (executeUnitCommands_fn node) us)) w).
Proof.
  revert w. induction us as [|u us IH]; intros w; cbn [map join].
  - by repeat split.
  - destruct (executeUnitCommands_fn_run node u w) as (Hc & Hr & Hf).
    autorewrite with run. rewrite !app_nil_r, calls_app, first_failure_app, Hc, <- Hr.
    destruct (IH (final (executeUnitCommands_fn node u) w)) as (Hc' & Hr' & Hf').
    rewrite Hc', <- Hr'. split_and!; [done..|by apply Forall_app_2].
Qed.

Lemma executeUnitCommands_run node units w :
  calls (trace (executeUnitCommands node units) w) = map wanted_command (schedule picks units)
  ∧ result (executeUnitCommands node units) w = first_failure (trace (executeUnitCommands node units) w)
  ∧ Forall (λ ev, of_unit_commands ev = true) (trace (executeUnitCommands node units) w).
Proof.
  unfold executeUnitCommands, flow_Parallel. rewrite schedule_map. apply join_run.
Qed.

Lemma executeUnitCommands_leaves node units w :
  Forall (λ ev, of_unit_commands ev = true) (trace (executeUnitCommands node units) w).
Proof. apply executeUnitCommands_run. Qed.

(** *** The phases of a pass *)

Lemma in_order_run ps w :
  (∀ p, p ∈ ps → ∀ w, Forall (λ ev, leaves p ev = true) (trace (action p) w)) →
  in_order ps w (trace (run_phases ps) w) (final (run_phases ps) w) (result (run_phases ps) w).
Proof.
  revert w. induction ps as [|p ps IH]; intros w Hleaves; cbn [run_phases].
  - constructor.
  - autorewrite with run. cbn [app].
    destruct (result (action p) w) eqn:Hp; autorewrite with run.
    + rewrite app_nil_r. constructor; [done | apply Hleaves; left].
    + constructor; [done | apply Hleaves; left |].
      apply IH. intros q Hq. apply Hleaves. by right.
Qed.

Lemma in_order_unique ps w t w' out :
  in_order ps w t w' out →
  t = trace (run_phases ps) w ∧ w' = final (run_phases ps) w ∧ out = result (run_phases ps) w.
Proof.
  induction 1 as [w|p ps w e Hp _|p ps w t w' out Hp _ _ (-> & -> & ->)];
    cbn [run_phases]; autorewrite with run; rewrite ?Hp; autorewrite with run;
    rewrite ?app_nil_r; done.
Qed.

Lemma six_phases_leaves node oscChanges p :
  p ∈ six_phases node oscChanges →
  ∀ w, Forall (λ ev, leaves p ev = true) (trace (action p) w).
Proof.
  unfold six_phases. rewrite !elem_of_cons, elem_of_nil.
  intros [->|[->|[->|[->|[->|[->|[]]]]]]] w; cbn [action leaves].
  - apply applyChangedFiles_leaves.
  - apply applyChangedUnits_leaves.
  - apply removeDeletedUnits_leaves.
  - rewrite trace_invoke. by repeat constructor.
  - apply executeUnitCommands_leaves.
  - apply removeDeletedFiles_leaves.
Qed.

Lemma in_order_six node oscChanges w :
  in_order (six_phases node oscChanges) w
    (trace (run_phases (six_phases node oscChanges)) w)
    (final (run_phases (six_phases node oscChanges)) w)
    (result (run_phases (six_phases node oscChanges)) w).
Proof. apply in_order_run, six_phases_leaves. Qed.

Lemma run_ext {A} (m : M A) w a w' t :
  result m w = a → final m w = w' → trace m w = t → m w = (a, w', t).
Proof. intros <- <- <-. apply run_eta. Qed.

Lemma bind_run {A B} (m : M A) (k : A → M B) w a w1 t1 :
  m w = (a, w1, t1) →
  (m ≫= k) w = (let '(b, w2, t2) := k a w1 in (b, w2, t1 ++ t2)).
Proof. intros Hm. unfold mbind, M_bind. by rewrite Hm. Qed.

(** The phases in front of the rest of a pass, folded into one computation. *)
Lemma phases_then ps rest w :
  foldr phase_then rest ps w =
    match result (run_phases ps) w with
    | Some e => ((Result_zero, Some e), final (run_phases ps) w, trace (run_phases ps) w)
    | None =>
        (result rest (final (run_phases ps) w),
         final rest (final (run_phases ps) w),
         trace (run_phases ps) w ++ trace rest (final (run_phases ps) w))
    end.
Proof.
  revert w. induction ps as [|p ps IH]; intros w; cbn [foldr run_phases].
  - autorewrite with run. apply run_eta.
  - unfold phase_then at 1.
    rewrite (bind_run _ _ w () w [Logged 0 (announced p) []]) by done.
    rewrite (bind_run _ _ w _ _ _ (run_eta (action p) w)).
    autorewrite with run. cbn [app].
    destruct (result (action p) w); autorewrite with run.
    + done.
    + rewrite IH. destruct (result (run_phases ps) _); by rewrite ?app_assoc.
Qed.

(** A pass that gets past the gate runs the six phases and, if they are
    through, goes on to persist. *)
Lemma Reconcile_pass request w node oscRaw oscChecksum oscChanges w2 pre :
  reaches_gate request w node oscRaw oscChecksum (inl oscChanges) w2 pre →
  up_to_date node oscChecksum = false →
  Reconcile request w =
    match result (run_phases (six_phases node oscChanges)) w2 with
    | Some e =>
        ((Result_zero, Some e), final (run_phases (six_phases node oscChanges)) w2,
         pre ++ trace (run_phases (six_phases node oscChanges)) w2)
    | None =>
        (result (persist node oscRaw oscChecksum oscChanges) (final (run_phases (six_phases node oscChanges)) w2),
         final (persist node oscRaw oscChecksum oscChanges) (final (run_phases (six_phases node oscChanges)) w2),
         pre ++ trace (run_phases (six_phases node oscChanges)) w2
             ++ trace (persist node oscRaw oscChecksum oscChanges) (final (run_phases (six_phases node oscChanges)) w2))
    end.
Proof.
  intros (secret & w1 & fetched & nerr & osc & H1 & H2 & H3 & Hnode & H5 & H6 & ->) Hgate.
  unfold up_to_date in Hgate. unfold Reconcile.
  erewrite bind_run by (unfold invoke_with; rewrite H1; reflexivity).
  cbv beta iota.
  erewrite bind_run by (unfold invoke_with; rewrite H2; reflexivity).
  cbv beta iota. rewrite H3, <- Hnode, H5.
  erewrite bind_run by reflexivity.
  rewrite <- H6, Hgate.
  change (if false then ?a else ?b) with b.
  match goal with
  | |- context [(log_Info "Applying new or changed files" [] ≫= ?k) w2] =>
      change (log_Info "Applying new or changed files" [] ≫= k)
        with (foldr phase_then (persist node oscRaw oscChecksum oscChanges) (six_phases node oscChanges))
  end.
  rewrite phases_then.
  destruct (result (run_phases (six_phases node oscChanges)) w2); cbn [app]; by rewrite ?app_nil_r.
Qed.

(** *** Order within the delete-units phase *)

Lemma in_due_order_nil : in_due_order [].
Proof. intros i c err Hi. by rewrite lookup_nil in Hi. Qed.

Lemma in_due_order_app t1 t2 :
  in_due_order t1 → in_due_order t2 → in_due_order (t1 ++ t2).
Proof.
  intros Ht1 Ht2 i c err Hi Hc. apply lookup_app_Some in Hi as [Hi|[Hlen Hi]].
  - destruct (Ht1 i c err Hi Hc) as (j & ev & Hj & Hev & Hpre).
    exists j, ev. split_and!; [done | by apply lookup_app_l_Some | done].
  - destruct (Ht2 _ c err Hi Hc) as (j & ev & Hj & Hev & Hpre).
    exists (length t1 + j)%nat, ev. split_and!; [lia | | done].
    by rewrite lookup_app_r, Nat.add_comm, Nat.add_sub by lia.
Qed.

Lemma range_in_due_order {A} (body : A → M (option error)) l :
  (∀ x w, in_due_order (trace (body x) w)) →
  ∀ w, in_due_order (trace (range l body) w).
Proof.
  intros Hbody. induction l as [|x l IH]; intros w; cbn [range].
  - apply in_due_order_nil.
  - rewrite trace_bind. apply in_due_order_app; [apply Hbody|].
    destruct (result (body x) w); [apply in_due_order_nil | apply IH].
Qed.

Ltac due_order_at i Hi Hc :=
  first
    [ discriminate Hi
    | by rewrite lookup_nil in Hi
    | destruct i as [|i];
      [ cbn in Hi; simplify_eq;
        first [ by (destruct Hc as [[? ?]|[[? ?]|[? ?]]])
              | by (exists 0%nat; eexists; split_and!; [lia | reflexivity | constructor])
              | by (exists 1%nat; eexists; split_and!; [lia | reflexivity | constructor]) ]
      | cbn in Hi; due_order_at i Hi Hc ] ].

Ltac due_order_cases :=
  let i := fresh "i" in let Hi := fresh "Hi" in let Hc := fresh "Hc" in
  intros i ? ? Hi Hc; due_order_at i Hi Hc.

Lemma removeDeletedUnits_body_in_due_order node unit w :
  in_due_order (trace (removeDeletedUnits_body node unit) w).
Proof.
  unfold removeDeletedUnits_body. run_steps; due_order_cases.
Qed.

Lemma removeDeletedUnits_in_due_order node units w :
  in_due_order (trace (removeDeletedUnits node units) w).
Proof. apply range_in_due_order, removeDeletedUnits_body_in_due_order. Qed.

(** *** Deleting loops *)

Lemma err_and_tolerated err : err_and err notFileNotFound = None ↔ tolerated err.
Proof.
  unfold err_and, notFileNotFound, tolerated. destruct err as [e|]; [|done].
  destruct (errors_Is e ErrFileNotFound); cbn; split; done.
Qed.

Ltac deletion_cases :=
  repeat match goal with
         | H : err_and _ notFileNotFound = None |- _ => apply err_and_tolerated in H
         | H : err_and ?err notFileNotFound = Some _ |- _ =>
             assert (¬ tolerated err) by (rewrite <- err_and_tolerated; congruence); clear H
         end;
  (split; [intros; try done; by repeat constructor
          | intros Hall; try done; exfalso;
            repeat match goal with
                   | H : Forall _ (_ :: _) |- _ => apply Forall_cons in H as [? H]
                   end; by cbn in *]).

(** *** Modes of the changed-files phase *)

Lemma range_Forall_elem {A} (P : A → event → Prop) (body : A → M (option error)) l :
  (∀ x w, Forall (P x) (trace (body x) w)) →
  ∀ w, Forall (λ ev, ∃ x, x ∈ l ∧ P x ev) (trace (range l body) w).
Proof.
  intros Hbody. induction l as [|x l IH]; intros w; cbn [range].
  - constructor.
  - rewrite trace_bind. apply Forall_app. split.
    + eapply Forall_impl; [apply Hbody|]. intros ev ?. exists x. split; [left | done].
    + destruct (result (body x) w); [constructor|].
      eapply Forall_impl; [apply IH|]. intros ev (y & ? & ?). exists y. split; [by right | done].
Qed.

Lemma applyChangedFiles_modes files w :
  Forall (λ ev, ∀ perm, mode_of ev = Some perm →
            ∃ file, file ∈ files ∧
              perm = match Permissions file with
                     | Some p => fs_FileMode p
                     | None => defaultFilePermissions
                     end)
         (trace (applyChangedFiles files) w).
Proof.
  unfold applyChangedFiles. run; try by repeat constructor.
  apply Forall_cons_2; [done|].
  apply Forall_app. split; [|by repeat constructor].
  eapply Forall_impl.
  - apply (range_Forall_elem
             (λ file ev, ∀ perm, mode_of ev = Some perm →
                perm = match Permissions file with
                       | Some p => fs_FileMode p
                       | None => defaultFilePermissions
                       end)).
    clear. intros file w. unfold applyChangedFiles_body.
    run; repeat constructor; cbn; intros; by simplify_eq.
  - cbn. intros ev (file & ? & Hp) perm ?. exists file. split; [done | by apply Hp].
Qed.

(** *** Content that is already in place *)

Lemma bytes_Equal_refl b : bytes_Equal b b = true.
Proof. unfold bytes_Equal. by apply bool_decide_eq_true_2. Qed.

Lemma applyUnitFile_unchanged unit p content w :
  UnitContent (unit_ unit) = Some content →
  (FS_ReadFile p w).1 = (list_byte_of_string content, None) →
  trace (applyUnitFile unit p) w =
    [Called (FSReadFile p) None;
     Called (FSChmod p defaultFilePermissions)
            (FS_Chmod p defaultFilePermissions (FS_ReadFile p w).2).1].
Proof.
  intros Hcontent Hread. unfold applyUnitFile. rewrite Hcontent.
  autorewrite with run. rewrite Hread. cbn [fst snd err_and].
  rewrite bytes_Equal_refl. cbn [negb]. run; done.
Qed.

Lemma applyChangedDropIn_unchanged unit p dir dropIn w :
  (FS_ReadFile (path_Join [dir; DropInName dropIn]) w).1
    = (list_byte_of_string (DropInContent dropIn), None) →
  trace (applyChangedDropIn unit p dir dropIn) w =
    [Called (FSReadFile (path_Join [dir; DropInName dropIn])) None;
     Called (FSChmod (path_Join [dir; DropInName dropIn]) defaultFilePermissions)
            (FS_Chmod (path_Join [dir; DropInName dropIn]) defaultFilePermissions
                      (FS_ReadFile (path_Join [dir; DropInName dropIn]) w).2).1].
Proof.
  intros Hread. unfold applyChangedDropIn.
  autorewrite with run. rewrite Hread. cbn [fst snd err_and].
  rewrite bytes_Equal_refl. cbn [negb]. run; done.
Qed.

(** A loop that ends without error has run every round, without error. *)
Lemma range_elem_trace {A} (body : A → M (option error)) l w x :
  result (range l body) w = None → x ∈ l →
  ∃ w', result (body x) w' = None ∧ ∀ ev, ev ∈ trace (body x) w' → ev ∈ trace (range l body) w.
Proof.
  revert w. induction l as [|y l IH]; intros w Hres Hx; [by apply elem_of_nil in Hx|].
  cbn [range] in *. rewrite result_bind in Hres. rewrite trace_bind.
  destruct (result (body y) w) eqn:Hy; [done|].
  apply elem_of_cons in Hx as [->|Hx].
  - exists w. split; [done|]. intros ev ?. apply elem_of_app. by left.
  - destruct (IH _ Hres Hx) as (w' & ? & Hsub).
    exists w'. split; [done|]. intros ev ?. apply elem_of_app. right. by apply Hsub.
Qed.

Ltac chmod_cases :=
  intros; try done;
  repeat match goal with
         | |- _ ∈ _ :: _ => apply elem_of_cons; first [by left | right]
         end.

Lemma applyUnitFile_chmod unit p content w :
  UnitContent (unit_ unit) = Some content →
  result (applyUnitFile unit p) w = None →
  Called (FSChmod p defaultFilePermissions) None ∈ trace (applyUnitFile unit p) w.
Proof.
  intros Hcontent. unfold applyUnitFile. rewrite Hcontent. run; chmod_cases.
Qed.

Lemma applyChangedDropIn_chmod unit p dir dropIn w :
  result (applyChangedDropIn unit p dir dropIn) w = None →
  Called (FSChmod (path_Join [dir; DropInName dropIn]) defaultFilePermissions) None
    ∈ trace (applyChangedDropIn unit p dir dropIn) w.
Proof. unfold applyChangedDropIn. run; chmod_cases. Qed.

Lemma applyDropIns_chmod unit p dropIn w :
  DropIns (unit_ unit) ≠ [] →
  dropIn ∈ dropIns_changed (unit_dropIns unit) →
  result (applyDropIns unit p) w = None →
  Called (FSChmod (path_Join [p +:+ ".d"; DropInName dropIn]) defaultFilePermissions) None
    ∈ trace (applyDropIns unit p) w.
Proof.
  intros Hne Hin. unfold applyDropIns. case_decide as Hlen.
  { by destruct (DropIns (unit_ unit)). }
  autorewrite with run. destruct (FS_MkdirAll _ _ w).1; [done|].
  autorewrite with run.
  destruct (result (range _ (applyChangedDropIn _ _ _)) _) eqn:Hrange; [done|].
  intros _. destruct (range_elem_trace _ _ _ _ Hrange Hin) as (w' & Hres & Hsub).
  apply elem_of_app. right. apply elem_of_app. left.
  by apply Hsub, applyChangedDropIn_chmod.
Qed.

Lemma applyChangedUnits_body_chmod unit w :
  result (applyChangedUnits_body unit) w = None →
  (∀ content, UnitContent (unit_ unit) = Some content →
     Called (FSChmod (path_Join [etcSystemdSystem; Name (unit_ unit)]) defaultFilePermissions) None
       ∈ trace (applyChangedUnits_body unit) w)
  ∧ (DropIns (unit_ unit) ≠ [] →
     ∀ dropIn, dropIn ∈ dropIns_changed (unit_dropIns unit) →
       Called (FSChmod (path_Join [path_Join [etcSystemdSystem; Name (unit_ unit)] +:+ ".d";
                                   DropInName dropIn]) defaultFilePermissions) None
         ∈ trace (applyChangedUnits_body unit) w).
Proof.
  unfold applyChangedUnits_body. autorewrite with run.
  destruct (result (applyUnitFile _ _) w) eqn:Hfile; [done|]. autorewrite with run.
  destruct (result (applyDropIns _ _) _) eqn:Hdrop; [done|]. intros _. split.
  - intros content Hcontent. apply elem_of_app. left. by eapply applyUnitFile_chmod.
  - intros Hne dropIn Hin. apply elem_of_app. right. apply elem_of_app. left.
    by apply applyDropIns_chmod.
Qed.

(** *** Passes as a whole *)

Lemma Reconcile_trace request w node oscRaw oscChecksum oscChanges w2 pre :
  reaches_gate request w node oscRaw oscChecksum (inl oscChanges) w2 pre →
  up_to_date node oscChecksum = false →
  trace (Reconcile request) w =
    pre ++ trace (run_phases (six_phases node oscChanges)) w2
        ++ (if result (run_phases (six_phases node oscChanges)) w2 is Some _ then []
            else trace (persist node oscRaw oscChecksum oscChanges)
                       (final (run_phases (six_phases node oscChanges)) w2)).
Proof.
  intros Hreach Hgate. unfold trace at 1.
  rewrite (Reconcile_pass _ _ _ _ _ _ _ _ Hreach Hgate).
  destruct (result (run_phases _) w2); cbn [snd]; by rewrite ?app_nil_r.
Qed.

(** A pass stopped at the gate. *)
Lemma Reconcile_gate request w node oscRaw oscChecksum oscChanges w2 pre :
  reaches_gate request w node oscRaw oscChecksum oscChanges w2 pre →
  up_to_date node oscChecksum = true →
  Reconcile request w =
    match oscChanges with
    | inl _ =>
        ((Result_zero, None), w2,
         pre ++ [Logged 0 "Configuration on this node is up to date, nothing to be done" []])
    | inr err =>
        ((Result_zero, Some (Errorf "unable to calculate the OSC changes: %w" [] err)), w2, pre)
    end.
Proof.
  intros (secret & w1 & fetched & nerr & osc & H1 & H2 & H3 & Hnode & H5 & H6 & ->) Hgate.
  unfold up_to_date in Hgate. unfold Reconcile.
  erewrite bind_run by (unfold invoke_with; rewrite H1; reflexivity).
  cbv beta iota.
  erewrite bind_run by (unfold invoke_with; rewrite H2; reflexivity).
  cbv beta iota. rewrite H3, <- Hnode, H5.
  erewrite bind_run by reflexivity.
  rewrite <- H6. destruct oscChanges as [oscChanges|err]; [|reflexivity].
  rewrite Hgate. reflexivity.
Qed.

Lemma reloads_app t1 t2 : reloads (t1 ++ t2) = (reloads t1 + reloads t2)%nat.
Proof. unfold reloads. by rewrite List.filter_app, length_app. Qed.

Lemma reloads_cons ev t :
  reloads (ev :: t) = ((if is_reload ev then 1 else 0) + reloads t)%nat.
Proof. unfold reloads. cbn [List.filter]. by destruct (is_reload ev). Qed.

Lemma reloads_none (allowed : event → bool) t :
  (∀ ev, allowed ev = true → is_reload ev = false) →
  Forall (λ ev, allowed ev = true) t → reloads t = 0%nat.
Proof.
  intros Hallowed. induction 1 as [|ev t Hev _ IH]; [done|].
  unfold reloads in *. cbn [List.filter]. by rewrite (Hallowed _ Hev).
Qed.

(** None of the five phase functions reloads the service manager. *)
Lemma phase_reloads (allowed : event → bool) t :
  allowed = of_write_files ∨ allowed = of_write_units ∨ allowed = of_delete_units
  ∨ allowed = of_unit_commands ∨ allowed = of_delete_files →
  Forall (λ ev, allowed ev = true) t → reloads t = 0%nat.
Proof.
  intros Hallowed. apply reloads_none.
  destruct Hallowed as [->|[->|[->|[->| ->]]]]; by intros [[]| |].
Qed.

Lemma persist_reloads node oscRaw oscChecksum oscChanges w :
  reloads (trace (persist node oscRaw oscChecksum oscChanges) w) = 0%nat.
Proof. unfold persist. run; reflexivity. Qed.

(** What is left of a pass opens with the write of the marker; without a node
    the marker is all of it. *)
Lemma persist_calls node oscRaw oscChecksum oscChanges w :
  ∃ rest,
    calls (trace (persist node oscRaw oscChecksum oscChanges) w)
    = FSWriteFile lastAppliedOperatingSystemConfigFilePath oscRaw (octal [6; 4; 4]) :: rest
    ∧ (node = None → rest = []).
Proof.
  unfold persist. run_steps; eexists; (split; [reflexivity | done]).
Qed.

Lemma in_order_no_patch ps w t w' out :
  (∀ p ev, p ∈ ps → leaves p ev = true → is_patch ev = false) →
  in_order ps w t w' out → Forall (λ ev, is_patch ev = false) t.
Proof.
  intros Hps Hrun. induction Hrun as [w|p ps w e _ Hl|p ps w t w' out _ Hl _ IH].
  - constructor.
  - constructor; [done|]. eapply Forall_impl; [exact Hl|]. intros ev. apply Hps. left.
  - constructor; [done|]. apply Forall_app. split.
    + eapply Forall_impl; [exact Hl|]. intros ev. apply Hps. left.
    + apply IH. intros q ev Hq. apply Hps. by right.
Qed.

Lemma six_phases_no_patch node oscChanges p ev :
  p ∈ six_phases node oscChanges → leaves p ev = true → is_patch ev = false.
Proof.
  unfold six_phases. rewrite !elem_of_cons, elem_of_nil.
  intros [->|[->|[->|[->|[->|[->|[]]]]]]]; cbn [leaves]; by destruct ev as [[]| |].
Qed.

(** ** The claims *)

(** C1.  When one of the six phases returns an error, [Reconcile] returns that
    error, wrapped with the name of the phase, and the pass ends with the
    trace of that phase: the marker is not written and the node is not
    patched.  The marker is written by what follows the six phases, which
    runs only when all six went through, and opens with that write. *)
Theorem failed_phase_ends_the_pass request w node oscRaw oscChecksum oscChanges w2 pre t w' out :
  reaches_gate request w node oscRaw oscChecksum (inl oscChanges) w2 pre →
  up_to_date node oscChecksum = false →
  in_order (six_phases node oscChanges) w2 t w' out →
  match out with
  | Some e =>
      Reconcile request w = ((Result_zero, Some e), w', pre ++ t)
      ∧ Forall (λ ev, is_patch ev = false) (pre ++ t)
  | None =>
      Reconcile request w =
        (result (persist node oscRaw oscChecksum oscChanges) w',
         final (persist node oscRaw oscChecksum oscChanges) w',
         pre ++ t ++ trace (persist node oscRaw oscChecksum oscChanges) w')
      ∧ ∃ rest,
          calls (trace (persist node oscRaw oscChecksum oscChanges) w')
          = FSWriteFile lastAppliedOperatingSystemConfigFilePath oscRaw (octal [6; 4; 4]) :: rest
  end.
Proof.
  intros Hreach Hgate Hrun.
  pose proof (in_order_no_patch _ _ _ _ _ (six_phases_no_patch node oscChanges) Hrun) as Hpatch.
  apply in_order_unique in Hrun as (-> & -> & ->).
  rewrite (Reconcile_pass _ _ _ _ _ _ _ _ Hreach Hgate).
  destruct (result (run_phases _) w2).
  - split; [done|]. apply Forall_app. split; [|done].
    destruct Hreach as (? & ? & ? & ? & ? & _ & _ & _ & _ & _ & _ & ->). by repeat constructor.
  - split; [done|]. destruct (persist_calls node oscRaw oscChecksum oscChanges
      (final (run_phases (six_phases node oscChanges)) w2)) as (rest & ? & _). by exists rest.
Qed.

(** C2.  A pass that applies changes runs the six phases in the order write
    files, write units, delete units, reload, unit commands, delete files:
    its trace is the trace of these phases run [in_order], each through (or
    failed) before the next is announced, followed by what persists the
    result if all went through.  Within the delete-units phase every stop
    comes after the disabling of its unit went through, and every removal of
    a unit file or drop-in directory after the stop of its unit went
    through. *)
Theorem phases_run_in_fixed_order request w node oscRaw oscChecksum oscChanges w2 pre :
  reaches_gate request w node oscRaw oscChecksum (inl oscChanges) w2 pre →
  up_to_date node oscChecksum = false →
  (∃ t w' out,
     in_order (six_phases node oscChanges) w2 t w' out
     ∧ trace (Reconcile request) w =
         pre ++ t ++ (if out is Some _ then []
                      else trace (persist node oscRaw oscChecksum oscChanges) w'))
  ∧ in_due_order (trace (removeDeletedUnits node (units_deleted (changes_units oscChanges)))
                        (final (applyChangedUnits (units_changed (changes_units oscChanges)))
                           (final (applyChangedFiles (files_changed (changes_files oscChanges))) w2))).
Proof.
  intros Hreach Hgate. split.
  - eexists _, _, _. split; [apply in_order_six|].
    apply (Reconcile_trace _ _ _ _ _ _ _ _ Hreach Hgate).
  - apply removeDeletedUnits_in_due_order.
Qed.

(** C3 (amended).  In a pass in which the checksum of the node's annotation is
    that of the desired configuration and the change set could be computed,
    [Reconcile] logs that the node is up to date and returns nil; if the
    change set could not be computed, it returns that error.  Either way the
    pass calls nothing that writes or removes on the file system and nothing
    of the service manager. *)
Theorem converged_pass_is_skipped request w node oscRaw oscChecksum oscChanges w2 pre :
  reaches_gate request w node oscRaw oscChecksum oscChanges w2 pre →
  up_to_date node oscChecksum = true →
  Reconcile request w =
    match oscChanges with
    | inl _ =>
        ((Result_zero, None), w2,
         pre ++ [Logged 0 "Configuration on this node is up to date, nothing to be done" []])
    | inr err =>
        ((Result_zero, Some (Errorf "unable to calculate the OSC changes: %w" [] err)), w2, pre)
    end
  ∧ Forall (λ ev, touches_machine ev = false) (trace (Reconcile request) w).
Proof.
  intros Hreach Hgate. split; [apply (Reconcile_gate _ _ _ _ _ _ _ _ Hreach Hgate)|].
  unfold trace. rewrite (Reconcile_gate _ _ _ _ _ _ _ _ Hreach Hgate).
  destruct Hreach as (? & ? & ? & ? & ? & _ & _ & _ & _ & _ & _ & ->).
  destruct oscChanges; by repeat constructor.
Qed.

(** C4.  The unit-command phase issues exactly one command per changed unit:
    the calls of its trace are, up to the order the scheduler chose, the
    wanted commands of the units - Stop for a unit that is disabled
    ([Enable] explicitly false) or whose command is Stop, Restart for every
    other unit ([Enable] unset counts as true).  A unit with [Enable] false
    and no command gets Stop. *)
Theorem unit_commands_one_per_unit node units w :
  calls (trace (executeUnitCommands node units) w) ≡ₚ map wanted_command units
  ∧ (∀ name content dropins sub,
       wanted_command {| unit_ := {| Name := name; Command := None; Enable := Some false;
                                     UnitContent := content; DropIns := dropins |};
                         unit_dropIns := sub |} = DBusStop name)
  ∧ (∀ name content dropins sub,
       wanted_command {| unit_ := {| Name := name; Command := None; Enable := None;
                                     UnitContent := content; DropIns := dropins |};
                         unit_dropIns := sub |} = DBusRestart name).
Proof.
  split_and!.
  - destruct (executeUnitCommands_run node units w) as (-> & _).
    by rewrite schedule_Permutation.
  - intros. unfold wanted_command, stop_wanted. cbn. case_decide as H; [done|].
    exfalso. apply H. by left.
  - intros. unfold wanted_command, stop_wanted. cbn. case_decide as H; [|done].
    by destruct H.
Qed.

(** C5.  The unit-command phase returns nil exactly when every command of its
    trace succeeded; otherwise it returns the error of the first command that
    failed, wrapped by its task; and whatever fails, the trace holds the
    command of every unit: none is cancelled. *)
Theorem unit_commands_join_all node units w :
  (result (executeUnitCommands node units) w = None
   ↔ Forall command_succeeded (trace (executeUnitCommands node units) w))
  ∧ result (executeUnitCommands node units) w
    = first_failure (trace (executeUnitCommands node units) w)
  ∧ calls (trace (executeUnitCommands node units) w) ≡ₚ map wanted_command units.
Proof.
  destruct (executeUnitCommands_run node units w) as (Hc & Hr & Hf). split_and!.
  - rewrite Hr. by apply first_failure_None.
  - done.
  - by rewrite Hc, schedule_Permutation.
Qed.

(** C6.  Each deleting loop - the files of the delete-files phase, the deleted
    drop-ins of a changed unit, the units of the delete-units phase - ends
    without error exactly when every event of its trace is [deletion_ok]; and a
    removal answered "no such file" is [deletion_ok].  So a target that is
    already absent never makes a deletion fail. *)
Theorem deletions_tolerate_absence :
  (∀ files w,
     result (removeDeletedFiles files) w = None
     ↔ Forall deletion_ok (trace (removeDeletedFiles files) w))
  ∧ (∀ unit dir dropIns w,
       result (range dropIns (removeDeletedDropIn unit dir)) w = None
       ↔ Forall deletion_ok (trace (range dropIns (removeDeletedDropIn unit dir)) w))
  ∧ (∀ node units w,
       result (removeDeletedUnits node units) w = None
       ↔ Forall deletion_ok (trace (removeDeletedUnits node units) w))
  ∧ (∀ p e, errors_Is e ErrFileNotFound = true →
       deletion_ok (Called (FSRemove p) (Some e)) ∧ deletion_ok (Called (FSRemoveAll p) (Some e))).
Proof.
  split_and!.
  - intros files. apply range_None_iff. clear. intros file w.
    unfold removeDeletedFiles_body. run; deletion_cases.
  - intros unit dir dropIns. apply range_None_iff. clear dropIns. intros dropIn w.
    unfold removeDeletedDropIn. run; deletion_cases.
  - intros node units. apply range_None_iff. clear units. intros unit w.
    unfold removeDeletedUnits_body. run; deletion_cases.
  - done.
Qed.

(** C7.  For a changed unit with content: when the unit file on disk reads the
    same bytes, the unit-file step calls ReadFile and then Chmod with the
    default mode and nothing else - no write; the same holds for a changed
    drop-in.  And in a changed-units phase that went through, the file of
    every unit with content and, for units with drop-ins, every changed
    drop-in had its mode reset. *)
Theorem unchanged_content_is_not_rewritten :
  (∀ unit p content w,
     UnitContent (unit_ unit) = Some content →
     (FS_ReadFile p w).1 = (list_byte_of_string content, None) →
     trace (applyUnitFile unit p) w =
       [Called (FSReadFile p) None;
        Called (FSChmod p defaultFilePermissions)
               (FS_Chmod p defaultFilePermissions (FS_ReadFile p w).2).1])
  ∧ (∀ unit p dir dropIn w,
       (FS_ReadFile (path_Join [dir; DropInName dropIn]) w).1
         = (list_byte_of_string (DropInContent dropIn), None) →
       trace (applyChangedDropIn unit p dir dropIn) w =
         [Called (FSReadFile (path_Join [dir; DropInName dropIn])) None;
          Called (FSChmod (path_Join [dir; DropInName dropIn]) defaultFilePermissions)
                 (FS_Chmod (path_Join [dir; DropInName dropIn]) defaultFilePermissions
                           (FS_ReadFile (path_Join [dir; DropInName dropIn]) w).2).1])
  ∧ (∀ units w unit,
       result (applyChangedUnits units) w = None → unit ∈ units →
       (∀ content, UnitContent (unit_ unit) = Some content →
          Called (FSChmod (path_Join [etcSystemdSystem; Name (unit_ unit)]) defaultFilePermissions) None
            ∈ trace (applyChangedUnits units) w)
       ∧ (DropIns (unit_ unit) ≠ [] →
          ∀ dropIn, dropIn ∈ dropIns_changed (unit_dropIns unit) →
            Called (FSChmod (path_Join [path_Join [etcSystemdSystem; Name (unit_ unit)] +:+ ".d";
                                        DropInName dropIn]) defaultFilePermissions) None
              ∈ trace (applyChangedUnits units) w)).
Proof.
  split_and!.
  - apply applyUnitFile_unchanged.
  - apply applyChangedDropIn_unchanged.
  - intros units w unit Hres Hin.
    destruct (range_elem_trace _ _ _ _ Hres Hin) as (w' & Hbody & Hsub).
    destruct (applyChangedUnits_body_chmod _ _ Hbody) as [Hfile Hdrop]. split.
    + intros content Hcontent. by eapply Hsub, Hfile.
    + intros Hne dropIn HdropIn. by apply Hsub, Hdrop.
Qed.

(** C8.  When the node is not found, no checksum is compared: whatever the
    checksum of the desired configuration, the pass runs the six phases in
    order and, if they go through, writes the marker - and nothing else, for
    want of a node to patch. *)
Theorem missing_node_forces_apply request w secret w1 fetched e w2 osc oscRaw oscChecksum oscChanges :
  Client_GetSecret (RequestNamespacedName request) w = ((secret, None), w1) →
  Client_GetNode (NodeName r) w1 = ((fetched, Some e), w2) →
  apierrors_IsNotFound e = true →
  extractOSCFromSecret secret = inl (osc, oscRaw, oscChecksum) →
  computeOperatingSystemConfigChanges w2 osc = inl oscChanges →
  ∃ t w' out,
    in_order (six_phases None oscChanges) w2 t w' out
    ∧ Reconcile request w =
        match out with
        | Some e' =>
            ((Result_zero, Some e'), w',
             [Called (ClientGetSecret (RequestNamespacedName request)) None;
              Called (ClientGetNode (NodeName r)) (Some e)] ++ t)
        | None =>
            (result (persist None oscRaw oscChecksum oscChanges) w',
             final (persist None oscRaw oscChecksum oscChanges) w',
             [Called (ClientGetSecret (RequestNamespacedName request)) None;
              Called (ClientGetNode (NodeName r)) (Some e)] ++ t
               ++ trace (persist None oscRaw oscChecksum oscChanges) w')
        end
    ∧ calls (trace (persist None oscRaw oscChecksum oscChanges) w')
      = [FSWriteFile lastAppliedOperatingSystemConfigFilePath oscRaw (octal [6; 4; 4])].
Proof.
  intros Hsecret Hnode Hnf Hosc Hchanges.
  eexists _, _, _. split; [apply in_order_six|]. split.
  - apply (Reconcile_pass request w None oscRaw oscChecksum oscChanges w2
             [Called (ClientGetSecret (RequestNamespacedName request)) None;
              Called (ClientGetNode (NodeName r)) (Some e)]); [|done].
    exists secret, w1, fetched, (Some e), osc. split_and!; try done.
    cbn [err_and]. by rewrite Hnf.
  - destruct (persist_calls None oscRaw oscChecksum oscChanges
      (final (run_phases (six_phases None oscChanges)) w2)) as (rest & -> & ->); done.
Qed.

(** C9.  A pass that gets past the gate and whose first three phases go through
    reloads the service manager exactly once, whatever happens afterwards and
    whatever the change set; with an empty change set it is enough that the
    scratch directory can be made. *)
Theorem daemon_reloaded_once request w node oscRaw oscChecksum oscChanges w2 pre :
  reaches_gate request w node oscRaw oscChecksum (inl oscChanges) w2 pre →
  up_to_date node oscChecksum = false →
  (result (applyChangedFiles (files_changed (changes_files oscChanges))) w2 = None →
   result (applyChangedUnits (units_changed (changes_units oscChanges)))
     (final (applyChangedFiles (files_changed (changes_files oscChanges))) w2) = None →
   result (removeDeletedUnits node (units_deleted (changes_units oscChanges)))
     (final (applyChangedUnits (units_changed (changes_units oscChanges)))
        (final (applyChangedFiles (files_changed (changes_files oscChanges))) w2)) = None →
   reloads (trace (Reconcile request) w) = 1%nat)
  ∧ (oscChanges = no_changes →
     (FS_TempDir "" "gardener-node-agent-*" w2).1.2 = None →
     reloads (trace (Reconcile request) w) = 1%nat).
Proof.
  intros Hreach Hgate.
  assert (result (applyChangedFiles (files_changed (changes_files oscChanges))) w2 = None →
   result (applyChangedUnits (units_changed (changes_units oscChanges)))
     (final (applyChangedFiles (files_changed (changes_files oscChanges))) w2) = None →
   result (removeDeletedUnits node (units_deleted (changes_units oscChanges)))
     (final (applyChangedUnits (units_changed (changes_units oscChanges)))
        (final (applyChangedFiles (files_changed (changes_files oscChanges))) w2)) = None →
   reloads (trace (Reconcile request) w) = 1%nat) as Hgeneral.
  { intros Hfiles Hunits Hdeleted.
    rewrite (Reconcile_trace _ _ _ _ _ _ _ _ Hreach Hgate).
    destruct Hreach as (? & ? & ? & ? & ? & _ & _ & _ & _ & _ & _ & ->).
    rewrite !reloads_app.
    assert (reloads (if result (run_phases (six_phases node oscChanges)) w2 is Some _ then []
                     else trace (persist node oscRaw oscChecksum oscChanges)
                                (final (run_phases (six_phases node oscChanges)) w2)) = 0%nat) as ->.
    { destruct (result (run_phases _) w2); [done | apply persist_reloads]. }
    cbn [six_phases run_phases announced failure action].
    autorewrite with run. rewrite Hfiles. autorewrite with run. rewrite Hunits.
    autorewrite with run. rewrite Hdeleted. autorewrite with run.
    pose proof (phase_reloads of_write_files _ ltac:(tauto)
                  (applyChangedFiles_leaves (files_changed (changes_files oscChanges)) w2)) as R1.
    pose proof (λ w, phase_reloads of_write_units _ ltac:(tauto)
                  (applyChangedUnits_leaves (units_changed (changes_units oscChanges)) w)) as R2.
    pose proof (λ w, phase_reloads of_delete_units _ ltac:(tauto)
                  (removeDeletedUnits_leaves node (units_deleted (changes_units oscChanges)) w)) as R3.
    pose proof (λ w, phase_reloads of_unit_commands _ ltac:(tauto)
                  (executeUnitCommands_leaves node (units_changed (changes_units oscChanges)) w)) as R5.
    pose proof (λ w, phase_reloads of_delete_files _ ltac:(tauto)
                  (removeDeletedFiles_leaves (files_deleted (changes_files oscChanges)) w)) as R6.
    destruct (DBus_DaemonReload _).1; autorewrite with run;
      [|destruct (result (executeUnitCommands _ _) _); autorewrite with run;
        [|destruct (result (removeDeletedFiles _) _); autorewrite with run]];
      repeat first [rewrite reloads_app | rewrite reloads_cons];
      rewrite ?R1, ?R2, ?R3, ?R5, ?R6; reflexivity. }
  split; [done|].
  intros -> Htmp. apply Hgeneral; [|done..].
  cbn [no_changes changes_files files_changed]. unfold applyChangedFiles.
  autorewrite with run. destruct (FS_TempDir _ _ w2).1 as [tmpDir err]. cbn in Htmp. subst err.
  by autorewrite with run.
Qed.

(** C10.  The default mode is 0600; every file the changed-units phase writes
    or re-modes - unit files and drop-ins alike - gets exactly that mode; the
    changed-files phase gives each file it writes the mode one of the files
    asks for, which is 0600 where the file names none. *)
Theorem units_get_the_default_mode :
  defaultFilePermissions = 384
  ∧ (∀ units w,
       Forall (λ ev, ∀ perm, mode_of ev = Some perm → perm = defaultFilePermissions)
              (trace (applyChangedUnits units) w))
  ∧ (∀ files w,
       Forall (λ ev, ∀ perm, mode_of ev = Some perm →
                 ∃ file, file ∈ files ∧
                   perm = match Permissions file with
                          | Some p => fs_FileMode p
                          | None => defaultFilePermissions
                          end)
              (trace (applyChangedFiles files) w)).
Proof.
  split_and!.
  - reflexivity.
  - intros. eapply Forall_impl; [apply applyChangedUnits_events|]. by intros ? [_ ?].
  - intros. apply applyChangedFiles_modes.
Qed.


(** ** Further properties of the reconciler *)

(** *** Passes that end before the gate *)

(** X1.  When the secret cannot be fetched the pass ends at once.  If the
    answer is "not found", [Reconcile] logs that the object is gone and
    returns nil with no requeue; any other error is returned wrapped.  Either
    way the Get of the secret is the only call of the pass. *)
Theorem secret_fetch_failure_ends_pass request w secret err w1 :
  Client_GetSecret (RequestNamespacedName request) w = ((secret, Some err), w1) →
  Reconcile request w =
    if apierrors_IsNotFound err
    then ((Result_zero, None), w1,
          [Called (ClientGetSecret (RequestNamespacedName request)) (Some err);
           Logged 1 "Object is gone, stop reconciling" []])
    else ((Result_zero, Some (Errorf "error retrieving object from store: %w" [] err)), w1,
          [Called (ClientGetSecret (RequestNamespacedName request)) (Some err)]).
Proof.
  intros Hsecret. unfold Reconcile.
  erewrite bind_run by (unfold invoke_with; rewrite Hsecret; reflexivity).
  cbv beta iota. by destruct (apierrors_IsNotFound err).
Qed.

(** X2.  When fetching the node fails with anything but "not found", the pass
    returns that error wrapped with the node's name, and nothing is called
    after the two Gets: the secret is not even decoded. *)
Theorem node_fetch_failure_ends_pass request w secret w1 fetched err w2 :
  Client_GetSecret (RequestNamespacedName request) w = ((secret, None), w1) →
  Client_GetNode (NodeName r) w1 = ((fetched, Some err), w2) →
  apierrors_IsNotFound err = false →
  Reconcile request w =
    ((Result_zero, Some (Errorf "unable to fetch node %q: %w" [NodeName r] err)), w2,
     [Called (ClientGetSecret (RequestNamespacedName request)) None;
      Called (ClientGetNode (NodeName r)) (Some err)]).
Proof.
  intros Hsecret Hnode Hnf. unfold Reconcile.
  erewrite bind_run by (unfold invoke_with; rewrite Hsecret; reflexivity).
  cbv beta iota.
  erewrite bind_run by (unfold invoke_with; rewrite Hnode; reflexivity).
  cbv beta iota. cbn [err_and]. by rewrite Hnf.
Qed.

(** X3.  When the configuration cannot be extracted from the secret, the pass
    returns the error of the extraction as it is, unwrapped, whether the node
    exists or not, and calls nothing beyond the two Gets. *)
Theorem undecodable_secret_ends_pass request w secret w1 fetched nerr w2 err :
  Client_GetSecret (RequestNamespacedName request) w = ((secret, None), w1) →
  Client_GetNode (NodeName r) w1 = ((fetched, nerr), w2) →
  err_and nerr (λ e, negb (apierrors_IsNotFound e)) = None →
  extractOSCFromSecret secret = inr err →
  Reconcile request w =
    ((Result_zero, Some err), w2,
     [Called (ClientGetSecret (RequestNamespacedName request)) None;
      Called (ClientGetNode (NodeName r)) nerr]).
Proof.
  intros Hsecret Hnode Hnerr Hextract. unfold Reconcile.
  erewrite bind_run by (unfold invoke_with; rewrite Hsecret; reflexivity).
  cbv beta iota.
  erewrite bind_run by (unfold invoke_with; rewrite Hnode; reflexivity).
  cbv beta iota. by rewrite Hnerr, Hextract.
Qed.


Lemma in_order_no_record ps w t w' out :
  (∀ p ev, p ∈ ps → leaves p ev = true → ∀ kind reason message, ev ≠ Recorded kind reason message) →
  in_order ps w t w' out →
  Forall (λ ev, ∀ kind reason message, ev ≠ Recorded kind reason message) t.
Proof.
  intros Hps Hrun. induction Hrun as [w|p ps w e _ Hl|p ps w t w' out _ Hl _ IH].
  - constructor.
  - constructor; [done|]. eapply Forall_impl; [exact Hl|]. intros ev. apply Hps. left.
  - constructor; [done|]. apply Forall_app. split.
    + eapply Forall_impl; [exact Hl|]. intros ev. apply Hps. left.
    + apply IH. intros q ev Hq. apply Hps. by right.
Qed.

Lemma six_phases_no_record node oscChanges p ev :
  p ∈ six_phases node oscChanges → leaves p ev = true →
  ∀ kind reason message, ev ≠ Recorded kind reason message.
Proof.
  unfold six_phases. rewrite !elem_of_cons, elem_of_nil.
  intros [->|[->|[->|[->|[->|[->|[]]]]]]]; cbn [leaves]; by destruct ev as [[]| |].
Qed.


(** *** The end of a pass that applied everything *)

Lemma persist_marker_failure node oscRaw oscChecksum oscChanges w e :
  (FS_WriteFile lastAppliedOperatingSystemConfigFilePath oscRaw (octal [6; 4; 4]) w).1 = Some e →
  persist node oscRaw oscChecksum oscChanges w =
    ((Result_zero, Some (Errorf "unable to write current OSC to file path %q: %w"
                           [lastAppliedOperatingSystemConfigFilePath] e)),
     (FS_WriteFile lastAppliedOperatingSystemConfigFilePath oscRaw (octal [6; 4; 4]) w).2,
     [Logged 0 "Successfully applied operating system config"
        [LStr "changedFiles"; LInt (length (files_changed (changes_files oscChanges)));
         LStr "deletedFiles"; LInt (length (files_deleted (changes_files oscChanges)));
         LStr "changedUnits"; LInt (length (units_changed (changes_units oscChanges)));
         LStr "deletedUnits"; LInt (length (units_deleted (changes_units oscChanges)))];
      Logged 0 "Persisting current operating system config as 'last-applied' file to the disk"
        [LStr "path"; LStr lastAppliedOperatingSystemConfigFilePath];
      Called (FSWriteFile lastAppliedOperatingSystemConfigFilePath oscRaw (octal [6; 4; 4])) (Some e)]).
Proof.
  intros Hwrite. apply run_ext; unfold persist; autorewrite with run; rewrite Hwrite; done.
Qed.

Lemma persist_without_node oscRaw oscChecksum oscChanges w :
  (FS_WriteFile lastAppliedOperatingSystemConfigFilePath oscRaw (octal [6; 4; 4]) w).1 = None →
  result (persist None oscRaw oscChecksum oscChanges) w
    = ({| Requeue := false; RequeueAfter := 5 * time_Second |}, None)
  ∧ Forall (λ ev, is_patch ev = false) (trace (persist None oscRaw oscChecksum oscChanges) w).
Proof.
  intros Hwrite. unfold persist. autorewrite with run. rewrite Hwrite.
  split; [done | by repeat constructor].
Qed.

Lemma persist_with_node node oscRaw oscChecksum oscChanges w :
  (FS_WriteFile lastAppliedOperatingSystemConfigFilePath oscRaw (octal [6; 4; 4]) w).1 = None →
  result (persist (Some node) oscRaw oscChecksum oscChanges) w
    = ({| Requeue := false; RequeueAfter := Config_SyncPeriod r |},
       (Client_Patch
          (metav1_SetMetaDataAnnotation
             (metav1_SetMetaDataAnnotation node LabelWorkerKubernetesVersion (Config_KubernetesVersion r))
             AnnotationKeyChecksum oscChecksum) node
          (FS_WriteFile lastAppliedOperatingSystemConfigFilePath oscRaw (octal [6; 4; 4]) w).2).1)
  ∧ last (trace (persist (Some node) oscRaw oscChecksum oscChanges) w)
    = Some (Called
              (ClientPatch
                 (metav1_SetMetaDataAnnotation
                    (metav1_SetMetaDataAnnotation node LabelWorkerKubernetesVersion (Config_KubernetesVersion r))
                    AnnotationKeyChecksum oscChecksum) node)
              (Client_Patch
                 (metav1_SetMetaDataAnnotation
                    (metav1_SetMetaDataAnnotation node LabelWorkerKubernetesVersion (Config_KubernetesVersion r))
                    AnnotationKeyChecksum oscChecksum) node
                 (FS_WriteFile lastAppliedOperatingSystemConfigFilePath oscRaw (octal [6; 4; 4]) w).2).1).
Proof.
  intros Hwrite. unfold persist. autorewrite with run. rewrite Hwrite.
  autorewrite with run. done.
Qed.

(** The gate is closed for a node that carries the checksum. *)
Lemma up_to_date_marked node key value oscChecksum :
  up_to_date (Some (metav1_SetMetaDataAnnotation
                      (metav1_SetMetaDataAnnotation node key value)
                      AnnotationKeyChecksum oscChecksum)) oscChecksum = true.
Proof.
  unfold up_to_date, annotation, metav1_SetMetaDataAnnotation. cbn [Annotations].
  rewrite lookup_insert_eq. by apply bool_decide_eq_true_2.
Qed.

(** X4.  A pass whose six phases and marker write went through, with the node
    at hand, ends with one Patch of the node: the patched node carries the
    checksum of the applied configuration, so that the gate is closed for it;
    the pass returns the error of the Patch and asks to be run again after
    the sync period. *)
Theorem applied_pass_marks_node request w node oscRaw oscChecksum oscChanges w2 pre t w3 :
  reaches_gate request w (Some node) oscRaw oscChecksum (inl oscChanges) w2 pre →
  up_to_date (Some node) oscChecksum = false →
  in_order (six_phases (Some node) oscChanges) w2 t w3 None →
  (FS_WriteFile lastAppliedOperatingSystemConfigFilePath oscRaw (octal [6; 4; 4]) w3).1 = None →
  ∃ patched perr,
    patched = metav1_SetMetaDataAnnotation
                (metav1_SetMetaDataAnnotation node LabelWorkerKubernetesVersion (Config_KubernetesVersion r))
                AnnotationKeyChecksum oscChecksum
    ∧ result (Reconcile request) w = ({| Requeue := false; RequeueAfter := Config_SyncPeriod r |}, perr)
    ∧ last (trace (Reconcile request) w) = Some (Called (ClientPatch patched node) perr)
    ∧ up_to_date (Some patched) oscChecksum = true.
Proof.
  intros Hreach Hgate Hrun Hwrite.
  apply in_order_unique in Hrun as (-> & -> & Hout).
  pose proof (Reconcile_pass _ _ _ _ _ _ _ _ Hreach Hgate) as Hpass. rewrite <- Hout in Hpass.
  destruct (persist_with_node node oscRaw oscChecksum oscChanges _ Hwrite) as [Hres Hlast].
  eexists _, _. split; [reflexivity|]. split_and!.
  - unfold result at 1. rewrite Hpass. exact Hres.
  - unfold trace at 1. rewrite Hpass. cbn [snd]. rewrite !last_app, Hlast. done.
  - apply up_to_date_marked.
Qed.

(** X5.  When the six phases went through but the marker cannot be written,
    the pass returns that error, wrapped with the marker's path, right after
    the failed write: no event is recorded and the node is not patched. *)
Theorem marker_write_failure_ends_pass request w node oscRaw oscChecksum oscChanges w2 pre t w3 e :
  reaches_gate request w node oscRaw oscChecksum (inl oscChanges) w2 pre →
  up_to_date node oscChecksum = false →
  in_order (six_phases node oscChanges) w2 t w3 None →
  (FS_WriteFile lastAppliedOperatingSystemConfigFilePath oscRaw (octal [6; 4; 4]) w3).1 = Some e →
  result (Reconcile request) w
    = (Result_zero, Some (Errorf "unable to write current OSC to file path %q: %w"
                            [lastAppliedOperatingSystemConfigFilePath] e))
  ∧ last (trace (Reconcile request) w)
    = Some (Called (FSWriteFile lastAppliedOperatingSystemConfigFilePath oscRaw (octal [6; 4; 4])) (Some e))
  ∧ Forall (λ ev, is_patch ev = false) (trace (Reconcile request) w)
  ∧ Forall (λ ev, ∀ kind reason message, ev ≠ Recorded kind reason message) (trace (Reconcile request) w).
Proof.
  intros Hreach Hgate Hrun Hwrite.
  pose proof (in_order_no_patch _ _ _ _ _ (six_phases_no_patch node oscChanges) Hrun) as Hpatch.
  pose proof (in_order_no_record _ _ _ _ _ (six_phases_no_record node oscChanges) Hrun) as Hrec.
  apply in_order_unique in Hrun as (Ht & Hw3 & Hout).
  pose proof (Reconcile_pass _ _ _ _ _ _ _ _ Hreach Hgate) as Hpass.
  rewrite <- Hout, <- Hw3, <- Ht in Hpass. unfold result, final, trace in Hpass.
  rewrite (persist_marker_failure _ _ _ _ _ _ Hwrite) in Hpass.
  unfold result, trace. rewrite Hpass. cbn [fst snd].
  destruct Hreach as (? & ? & ? & ? & ? & _ & _ & _ & _ & _ & _ & ->).
  split_and!.
  - done.
  - by rewrite !last_app.
  - repeat (apply Forall_app; split); try done; by repeat constructor.
  - repeat (apply Forall_app; split); try done; by repeat constructor.
Qed.

(** X6.  When the six phases and the marker write went through but the node is
    not registered yet, the pass returns nil and asks to be run again after
    five seconds; it patches nothing. *)
Theorem unregistered_node_requeues_soon request w oscRaw oscChecksum oscChanges w2 pre t w3 :
  reaches_gate request w None oscRaw oscChecksum (inl oscChanges) w2 pre →
  in_order (six_phases None oscChanges) w2 t w3 None →
  (FS_WriteFile lastAppliedOperatingSystemConfigFilePath oscRaw (octal [6; 4; 4]) w3).1 = None →
  result (Reconcile request) w = ({| Requeue := false; RequeueAfter := 5000000000 |}, None)
  ∧ Forall (λ ev, is_patch ev = false) (trace (Reconcile request) w).
Proof.
  intros Hreach Hrun Hwrite.
  pose proof (in_order_no_patch _ _ _ _ _ (six_phases_no_patch None oscChanges) Hrun) as Hpatch.
  apply in_order_unique in Hrun as (-> & -> & Hout).
  pose proof (Reconcile_pass _ _ _ _ _ _ _ _ Hreach eq_refl) as Hpass. rewrite <- Hout in Hpass.
  destruct (persist_without_node oscRaw oscChecksum oscChanges _ Hwrite) as [Hres Hnopatch].
  unfold result at 1. unfold trace at 1. rewrite Hpass. cbn [fst snd]. split; [exact Hres|].
  destruct Hreach as (? & ? & ? & ? & ? & _ & _ & _ & _ & _ & _ & ->).
  repeat (apply Forall_app; split); try done; by repeat constructor.
Qed.


(** *** What a pass may patch *)

Ltac not_among Hin :=
  repeat (apply elem_of_cons in Hin as [Hin|Hin]; [discriminate Hin|]);
  by apply elem_of_nil in Hin.

Lemma Reconcile_compute_failure request w node oscRaw oscChecksum err w2 pre :
  reaches_gate request w node oscRaw oscChecksum (inr err) w2 pre →
  Reconcile request w =
    ((Result_zero, Some (Errorf "unable to calculate the OSC changes: %w" [] err)), w2, pre).
Proof.
  intros (secret & w1 & fetched & nerr & osc & H1 & H2 & H3 & Hnode & H5 & H6 & ->).
  unfold Reconcile.
  erewrite bind_run by (unfold invoke_with; rewrite H1; reflexivity).
  cbv beta iota.
  erewrite bind_run by (unfold invoke_with; rewrite H2; reflexivity).
  cbv beta iota. rewrite H3, <- Hnode, H5.
  erewrite bind_run by reflexivity.
  by rewrite <- H6.
Qed.

Lemma persist_patch node oscRaw oscChecksum oscChanges w patched base err :
  Called (ClientPatch patched base) err ∈ trace (persist node oscRaw oscChecksum oscChanges) w →
  node = Some base
  ∧ patched = metav1_SetMetaDataAnnotation
                (metav1_SetMetaDataAnnotation base LabelWorkerKubernetesVersion (Config_KubernetesVersion r))
                AnnotationKeyChecksum oscChecksum.
Proof.
  unfold persist. run; intros Hin; try not_among Hin.
  do 4 (apply elem_of_cons in Hin as [Hin|Hin]; [discriminate Hin|]).
  apply elem_of_cons in Hin as [Hin|Hin]; [|by apply elem_of_nil in Hin].
  by simplify_eq.
Qed.

(** Whatever a pass patches is the fetched node with two annotations set. *)
Lemma Reconcile_patch request w patched base err :
  Called (ClientPatch patched base) err ∈ trace (Reconcile request) w →
  ∃ oscChecksum,
    patched = metav1_SetMetaDataAnnotation
                (metav1_SetMetaDataAnnotation base LabelWorkerKubernetesVersion (Config_KubernetesVersion r))
                AnnotationKeyChecksum oscChecksum.
Proof.
  intros Hin.
  destruct (Client_GetSecret (RequestNamespacedName request) w) as [[secret [e1|]] w1] eqn:H1.
  { unfold trace, Reconcile in Hin.
    erewrite bind_run in Hin by (unfold invoke_with; rewrite H1; reflexivity).
    cbv beta iota in Hin. destruct (apierrors_IsNotFound e1); cbn in Hin; not_among Hin. }
  destruct (Client_GetNode (NodeName r) w1) as [[fetched nerr] w2] eqn:H2.
  destruct (err_and nerr (λ e, negb (apierrors_IsNotFound e))) as [e3|] eqn:H3.
  { unfold trace, Reconcile in Hin.
    erewrite bind_run in Hin by (unfold invoke_with; rewrite H1; reflexivity).
    cbv beta iota in Hin.
    erewrite bind_run in Hin by (unfold invoke_with; rewrite H2; reflexivity).
    cbv beta iota in Hin. rewrite H3 in Hin. cbn in Hin. not_among Hin. }
  destruct (extractOSCFromSecret secret) as [[[osc oscRaw] oscChecksum]|e5] eqn:H5.
  2:{ unfold trace, Reconcile in Hin.
      erewrite bind_run in Hin by (unfold invoke_with; rewrite H1; reflexivity).
      cbv beta iota in Hin.
      erewrite bind_run in Hin by (unfold invoke_with; rewrite H2; reflexivity).
      cbv beta iota in Hin. rewrite H3, H5 in Hin. cbn in Hin. not_among Hin. }
  assert (reaches_gate request w (if nerr is Some _ then None else Some fetched) oscRaw oscChecksum
            (computeOperatingSystemConfigChanges w2 osc) w2
            [Called (ClientGetSecret (RequestNamespacedName request)) None;
             Called (ClientGetNode (NodeName r)) nerr]) as Hreach.
  { exists secret, w1, fetched, nerr, osc. by split_and!. }
  destruct (computeOperatingSystemConfigChanges w2 osc) as [oscChanges|e6].
  2:{ unfold trace in Hin. rewrite (Reconcile_compute_failure _ _ _ _ _ _ _ _ Hreach) in Hin.
      cbn in Hin. not_among Hin. }
  destruct (up_to_date (if nerr is Some _ then None else Some fetched) oscChecksum) eqn:Hgate.
  { unfold trace in Hin. rewrite (Reconcile_gate _ _ _ _ _ _ _ _ Hreach Hgate) in Hin.
    cbn in Hin. not_among Hin. }
  rewrite (Reconcile_trace _ _ _ _ _ _ _ _ Hreach Hgate) in Hin.
  apply elem_of_app in Hin as [Hin|Hin]; [not_among Hin|].
  apply elem_of_app in Hin as [Hin|Hin].
  { pose proof (in_order_no_patch _ _ _ _ _ (six_phases_no_patch _ oscChanges)
                  (in_order_six (if nerr is Some _ then None else Some fetched) oscChanges w2)) as Hno.
    rewrite Forall_forall in Hno. by apply Hno in Hin. }
  destruct (result (run_phases _) w2); [by apply elem_of_nil in Hin|].
  apply persist_patch in Hin as [_ ->]. by exists oscChecksum.
Qed.

(** X7.  Whatever node a pass patches differs from the node it was fetched as
    in two annotations at most: the checksum annotation and the annotation of
    the Kubernetes version, which carries the configured version unless the
    two keys are the same.  The name and every other annotation are kept. *)
Theorem patch_changes_two_annotations request w patched base err :
  Called (ClientPatch patched base) err ∈ trace (Reconcile request) w →
  NodeObjName patched = NodeObjName base
  ∧ (LabelWorkerKubernetesVersion ≠ AnnotationKeyChecksum →
     annotation patched LabelWorkerKubernetesVersion = Config_KubernetesVersion r)
  ∧ ∀ key, key ≠ LabelWorkerKubernetesVersion → key ≠ AnnotationKeyChecksum →
      annotation patched key = annotation base key.
Proof.
  intros [oscChecksum ->]%Reconcile_patch.
  unfold annotation, metav1_SetMetaDataAnnotation. cbn [NodeObjName Annotations]. split_and!.
  - done.
  - intros Hne. by rewrite lookup_insert_ne, lookup_insert_eq.
  - intros key Hk1 Hk2. by rewrite !lookup_insert_ne.
Qed.

(** *** The scratch directory of the changed-files phase *)

(** X8.  The changed-files phase removes its scratch directory whenever it
    could make it: the removal is the last call of the phase, whether the
    files went through or one of them failed, and its own error is not
    returned.  If the scratch directory cannot be made, that error is returned
    wrapped and nothing else is called. *)
Theorem scratch_directory_is_removed files w :
  (∀ tmpDir w1, FS_TempDir "" "gardener-node-agent-*" w = ((tmpDir, None), w1) →
     last (trace (applyChangedFiles files) w)
       = Some (Called (FSRemoveAll tmpDir)
                 (FS_RemoveAll tmpDir (final (range files (applyChangedFiles_body tmpDir)) w1)).1)
     ∧ result (applyChangedFiles files) w = result (range files (applyChangedFiles_body tmpDir)) w1)
  ∧ (∀ tmpDir w1 e, FS_TempDir "" "gardener-node-agent-*" w = ((tmpDir, Some e), w1) →
       applyChangedFiles files w =
         (Some (Errorf "unable to create temporary directory: %w" [] e), w1,
          [Called (FSTempDir "" "gardener-node-agent-*") (Some e)])).
Proof.
  split.
  - intros tmpDir w1 Htmp. unfold applyChangedFiles. autorewrite with run. rewrite Htmp.
    cbn [fst snd]. autorewrite with run. cbn [fst snd]. split; [|done].
    by rewrite !last_app.
  - intros tmpDir w1 e Htmp. apply run_ext; unfold applyChangedFiles;
      autorewrite with run; rewrite Htmp; done.
Qed.


(** *** Files are written aside and moved into place *)

(** Every event of [t] that [needs] one has, earlier in [t], an event that
    stands in [R] to it. *)
Definition each_preceded (needs : event → Prop) (R : event → event → Prop) (t : list event) : Prop :=
  ∀ i ev, t !! i = Some ev → needs ev →
    ∃ j ev', (j < i)%nat ∧ t !! j = Some ev' ∧ R ev' ev.

Definition is_rename (ev : event) : Prop := ∃ a b e, ev = Called (FSRename a b) e.

(** [ev'] is the successful write of a file of [files] into the scratch
    directory and [ev] the move of that scratch file to the file's path. *)
Definition moved_into_place (tmpDir : string) (files : list File) (ev' ev : event) : Prop :=
  ∃ file data perm e,
    file ∈ files
    ∧ ev' = Called (FSWriteFile (filepath_Join [tmpDir; filepath_Base (Path file)]) data perm) None
    ∧ ev = Called (FSRename (filepath_Join [tmpDir; filepath_Base (Path file)]) (Path file)) e.

(** The file is written where it belongs to the scratch directory. *)
Definition written_aside (tmpDir : string) (files : list File) (ev : event) : Prop :=
  ∀ p data perm e, ev = Called (FSWriteFile p data perm) e →
    ∃ file, file ∈ files ∧ p = filepath_Join [tmpDir; filepath_Base (Path file)].

Lemma each_preceded_nil needs R : each_preceded needs R [].
Proof. intros i ev Hi. by rewrite lookup_nil in Hi. Qed.

Lemma each_preceded_app needs R t1 t2 :
  each_preceded needs R t1 → each_preceded needs R t2 → each_preceded needs R (t1 ++ t2).
Proof.
  intros Ht1 Ht2 i ev Hi Hneeds. apply lookup_app_Some in Hi as [Hi|[Hlen Hi]].
  - destruct (Ht1 i ev Hi Hneeds) as (j & ev' & Hj & Hev & HR).
    exists j, ev'. split_and!; [done | by apply lookup_app_l_Some | done].
  - destruct (Ht2 _ ev Hi Hneeds) as (j & ev' & Hj & Hev & HR).
    exists (length t1 + j)%nat, ev'. split_and!; [lia | | done].
    by rewrite lookup_app_r, Nat.add_comm, Nat.add_sub by lia.
Qed.

Lemma each_preceded_impl needs (R R' : event → event → Prop) t :
  (∀ ev' ev, R ev' ev → R' ev' ev) → each_preceded needs R t → each_preceded needs R' t.
Proof.
  intros HR Ht i ev Hi Hneeds. destruct (Ht i ev Hi Hneeds) as (j & ev' & ? & ? & ?).
  exists j, ev'. auto.
Qed.

Ltac moved_at file i Hi :=
  first
    [ discriminate Hi
    | by rewrite lookup_nil in Hi
    | destruct i as [|i];
      [ cbn in Hi;
        first [ discriminate Hi
              | simplify_eq; exists 1%nat; eexists; split_and!; [lia | reflexivity |];
                eexists file, _, _, _; split_and!; [by left | reflexivity | reflexivity] ]
      | cbn in Hi; moved_at file i Hi ] ].

Lemma applyChangedFiles_body_aside tmpDir file w :
  Forall (written_aside tmpDir [file]) (trace (applyChangedFiles_body tmpDir file) w)
  ∧ each_preceded is_rename (moved_into_place tmpDir [file])
                  (trace (applyChangedFiles_body tmpDir file) w).
Proof.
  unfold applyChangedFiles_body. run_steps; split.
  all: try apply each_preceded_nil.
  all: try (repeat first [apply Forall_nil_2 | apply Forall_cons_2];
            let H := fresh in
            intros ? ? ? ? H;
            first [ discriminate H
                  | injection H as <- <- <- <-; exists file; split; [by left | done] ]).
  all: let i := fresh "i" in let Hi := fresh "Hi" in
       intros i ? Hi (? & ? & ? & ->); moved_at file i Hi.
Qed.

Lemma range_files_aside tmpDir files w :
  Forall (written_aside tmpDir files) (trace (range files (applyChangedFiles_body tmpDir)) w)
  ∧ each_preceded is_rename (moved_into_place tmpDir files)
                  (trace (range files (applyChangedFiles_body tmpDir)) w).
Proof.
  revert w. induction files as [|file files IH]; intros w; cbn [range].
  - split; [constructor | apply each_preceded_nil].
  - rewrite trace_bind.
    destruct (applyChangedFiles_body_aside tmpDir file w) as [Hw Hr].
    assert (Forall (written_aside tmpDir (file :: files))
              (trace (applyChangedFiles_body tmpDir file) w)) as Hw'.
    { eapply Forall_impl; [exact Hw|]. intros ev Hev p data perm e ->.
      destruct (Hev _ _ _ _ eq_refl) as (f & Hf%list_elem_of_singleton & ->).
      exists f. split; [subst; by left | done]. }
    assert (each_preceded is_rename (moved_into_place tmpDir (file :: files))
              (trace (applyChangedFiles_body tmpDir file) w)) as Hr'.
    { eapply each_preceded_impl; [|exact Hr].
      intros ev' ev (f & data & perm & e & Hf%list_elem_of_singleton & -> & ->).
      exists f, data, perm, e. split_and!; [subst; by left | done..]. }
    destruct (result (applyChangedFiles_body tmpDir file) w).
    + rewrite trace_ret, app_nil_r. done.
    + destruct (IH (final (applyChangedFiles_body tmpDir file) w)) as [Hw2 Hr2]. split.
      * apply Forall_app. split; [done|].
        eapply Forall_impl; [exact Hw2|]. intros ev Hev p data perm e ->.
        destruct (Hev _ _ _ _ eq_refl) as (f & Hf & ->). exists f. split; [by right | done].
      * apply each_preceded_app; [done|]. eapply each_preceded_impl; [|exact Hr2].
        intros ev' ev (f & data & perm & e & Hf & -> & ->).
        exists f, data, perm, e. split_and!; [by right | done..].
Qed.

(** X9.  The changed-files phase never writes a file in place: whatever it
    writes goes to the scratch directory, under the base name of one of the
    files, and every move it makes takes such a scratch file to the path of
    its file, after the write of that scratch file went through. *)
Theorem files_are_moved_into_place files w :
  Forall (written_aside (FS_TempDir "" "gardener-node-agent-*" w).1.1 files)
         (trace (applyChangedFiles files) w)
  ∧ each_preceded is_rename
      (moved_into_place (FS_TempDir "" "gardener-node-agent-*" w).1.1 files)
      (trace (applyChangedFiles files) w).
Proof.
  unfold applyChangedFiles. autorewrite with run.
  destruct (FS_TempDir "" "gardener-node-agent-*" w) as [[tmpDir [e|]] w1]; cbn [fst snd];
    autorewrite with run; cbn [fst snd].
  - split; [by repeat constructor; intros ? ? ? ? [=]|].
    intros [|[|i]] ev Hi (a & b & e' & ->); by cbn in Hi; simplify_eq.
  - destruct (range_files_aside tmpDir files w1) as [Hw Hr]. split.
    + apply Forall_app. split; [by repeat constructor; intros ? ? ? ? [=]|].
      apply Forall_app. split; [done|]. by repeat constructor; intros ? ? ? ? [=].
    + apply each_preceded_app.
      { intros [|[|i]] ev Hi (a & b & e' & ->); by cbn in Hi; simplify_eq. }
      apply each_preceded_app; [done|].
      intros [|[|i]] ev Hi (a & b & e' & ->); by cbn in Hi; simplify_eq.
Qed.

(** A file without inline content takes no part in the loop. *)
Lemma applyChangedFiles_body_skip tmpDir file w :
  ¬ is_Some (Inline (Content file)) → applyChangedFiles_body tmpDir file w = (None, w, []).
Proof.
  intros Hnone. unfold applyChangedFiles_body.
  destruct (Inline (Content file)); [|done]. by destruct Hnone.
Qed.

Lemma range_files_filter tmpDir files w :
  range files (applyChangedFiles_body tmpDir) w
  = range (filter (λ file, is_Some (Inline (Content file))) files) (applyChangedFiles_body tmpDir) w.
Proof.
  revert w. induction files as [|file files IH]; intros w; [done|].
  rewrite filter_cons. case_decide as Hinline.
  - cbn [range]. unfold mbind, M_bind.
    destruct (applyChangedFiles_body tmpDir file w) as [[[e|] w1] t1]; [done|]. by rewrite IH.
  - cbn [range]. unfold mbind, M_bind.
    rewrite (applyChangedFiles_body_skip _ _ _ Hinline). cbn [app]. rewrite IH.
    by destruct (range _ _ w) as [[??]?].
Qed.

(** X10.  Files without inline content are passed over: the changed-files
    phase returns the same, leaves the same machine and the same trace as if
    they were not in the list. *)
Theorem files_without_content_are_skipped files w :
  applyChangedFiles files w
  = applyChangedFiles (filter (λ file, is_Some (Inline (Content file))) files) w.
Proof.
  unfold applyChangedFiles, mbind, M_bind.
  destruct (invoke_with _ _ w) as [[[tmpDir [e|]] w1] t1]; [done|].
  by rewrite range_files_filter.
Qed.


(** *** Unit files and drop-in directories *)


Definition is_remove_all (ev : event) : bool :=
  if ev is Called (FSRemoveAll _) _ then true else false.

Lemma applyChangedDropIn_keeps_dir unit p dir dropIn w :
  Forall (λ ev, is_remove_all ev = false) (trace (applyChangedDropIn unit p dir dropIn) w).
Proof. unfold applyChangedDropIn. run; by repeat constructor. Qed.

Lemma removeDeletedDropIn_keeps_dir unit dir dropIn w :
  Forall (λ ev, is_remove_all ev = false) (trace (removeDeletedDropIn unit dir dropIn) w).
Proof. unfold removeDeletedDropIn. run; by repeat constructor. Qed.

(** X12.  The drop-in directory of a changed unit is removed exactly when the
    unit has no drop-ins: then RemoveAll of the directory is the only call
    of the step, whatever the sub-diff holds, and a not-found answer is no
    error.  For a unit with drop-ins the step first makes the directory and
    never calls RemoveAll. *)
Theorem dropin_directory_follows_dropins unit p w :
  (DropIns (unit_ unit) = [] →
     trace (applyDropIns unit p) w = [Called (FSRemoveAll (p +:+ ".d")) (FS_RemoveAll (p +:+ ".d") w).1]
     ∧ (result (applyDropIns unit p) w = None ↔ tolerated (FS_RemoveAll (p +:+ ".d") w).1))
  ∧ (DropIns (unit_ unit) ≠ [] →
     head (trace (applyDropIns unit p) w)
       = Some (Called (FSMkdirAll (p +:+ ".d") fs_ModeDir) (FS_MkdirAll (p +:+ ".d") fs_ModeDir w).1)
     ∧ Forall (λ ev, is_remove_all ev = false) (trace (applyDropIns unit p) w)).
Proof.
  split.
  - intros Hnone. unfold applyDropIns. rewrite Hnone. cbn [length]. case_decide; [|done].
    autorewrite with run. rewrite <- err_and_tolerated.
    destruct (err_and _ notFileNotFound); autorewrite with run; done.
  - intros Hsome. unfold applyDropIns. case_decide as Hlen.
    { by destruct (DropIns (unit_ unit)). }
    autorewrite with run. split; [done|].
    apply Forall_cons_2; [done|].
    destruct (FS_MkdirAll _ _ w).1; autorewrite with run; [constructor|].
    apply Forall_app_2.
    { apply range_Forall. intros. apply applyChangedDropIn_keeps_dir. }
    destruct (result (range _ (applyChangedDropIn _ _ _)) _); autorewrite with run; [constructor|].
    apply range_Forall. intros. apply removeDeletedDropIn_keeps_dir.
Qed.


(** *** Registration of the changed units *)

(** The calls of a trace that register or unregister a unit. *)
Definition registrations (t : list event) : list call :=
  omap (λ ev, match ev with
              | Called (DBusEnable n) _ => Some (DBusEnable n)
              | Called (DBusDisable n) _ => Some (DBusDisable n)
              | _ => None
              end) t.

(** A changed unit is disabled if [Enable] is explicitly false, enabled
    otherwise. *)
Definition wanted_registration (unit : changedUnit) : call :=
  if decide (Enable (unit_ unit) = Some false)
  then DBusDisable (Name (unit_ unit)) else DBusEnable (Name (unit_ unit)).

Definition is_registration (ev : event) : bool :=
  match ev with
  | Called (DBusEnable _) _ | Called (DBusDisable _) _ => true
  | _ => false
  end.

Lemma registrations_app t1 t2 : registrations (t1 ++ t2) = registrations t1 ++ registrations t2.
Proof. unfold registrations. apply omap_app. Qed.

Lemma registrations_none t :
  Forall (λ ev, is_registration ev = false) t → registrations t = [].
Proof.
  induction 1 as [|ev t Hev _ IH]; [done|].
  change (ev :: t) with ([ev] ++ t). rewrite registrations_app, IH.
  by destruct ev as [[]| |].
Qed.

Lemma applyUnitFile_registers_nothing unit p w :
  Forall (λ ev, is_registration ev = false) (trace (applyUnitFile unit p) w).
Proof. unfold applyUnitFile. run; by repeat constructor. Qed.

Lemma applyDropIns_registers_nothing unit p w :
  Forall (λ ev, is_registration ev = false) (trace (applyDropIns unit p) w).
Proof.
  unfold applyDropIns. run; repeat first [apply Forall_nil_2 | apply Forall_cons_2; [done|] | apply Forall_app_2].
  all: apply range_Forall; intros x w'.
  all: first [ unfold applyChangedDropIn; run; by repeat constructor
             | unfold removeDeletedDropIn; run; by repeat constructor ].
Qed.

Lemma applyEnablement_registers unit w :
  registrations (trace (applyEnablement unit) w) = [wanted_registration unit].
Proof.
  unfold applyEnablement, wanted_registration.
  destruct (Enable (unit_ unit)) as [[]|]; cbn [pointer_BoolDeref]; case_decide; try done;
    run; reflexivity.
Qed.

Lemma applyChangedUnits_body_registers unit w :
  result (applyChangedUnits_body unit) w = None →
  registrations (trace (applyChangedUnits_body unit) w) = [wanted_registration unit].
Proof.
  unfold applyChangedUnits_body. autorewrite with run.
  rewrite !registrations_app, (registrations_none _ (applyUnitFile_registers_nothing _ _ _)).
  destruct (result (applyUnitFile _ _) w); [done|]. autorewrite with run.
  rewrite !registrations_app, (registrations_none _ (applyDropIns_registers_nothing _ _ _)).
  destruct (result (applyDropIns _ _) _); [done|]. intros _.
  apply applyEnablement_registers.
Qed.

(** X13.  A changed-units phase that went through has registered every unit
    once, in the order of the list: disabled the units whose [Enable] is
    explicitly false and enabled all others. *)
Theorem changed_units_are_registered units w :
  result (applyChangedUnits units) w = None →
  registrations (trace (applyChangedUnits units) w) = map wanted_registration units.
Proof.
  unfold applyChangedUnits. revert w.
  induction units as [|unit units IH]; intros w; cbn [range map]; [done|].
  autorewrite with run. rewrite registrations_app.
  destruct (result (applyChangedUnits_body unit) w) eqn:Hbody; [done|].
  intros Hrest. by rewrite (applyChangedUnits_body_registers _ _ Hbody), (IH _ Hrest).
Qed.

(** *** Errors of the changed-units phase *)

(** An event that lets the changed-units phase go on: a read or a removal that
    succeeded or found nothing, any other call that succeeded. *)
Definition unit_call_ok (ev : event) : Prop :=
  match ev with
  | Called (FSReadFile _) err | Called (FSRemove _) err | Called (FSRemoveAll _) err => tolerated err
  | Called _ (Some _) => False
  | _ => True
  end.

(** Steps that settle the tests on booleans before the results that hang on
    them. *)
Ltac run_case_bool :=
  match goal with
  | |- context [if ?b then _ else _] =>
      match type of b with bool => destruct b eqn:? end
  end.

Ltac run_bool_first :=
  hide_strings;
  repeat (cbn [fst snd app]; autorewrite with run; cbn [fst snd app];
          try first [run_case_bool | run_case]).

(** "If the first step failed return its error, else go on with the second." *)
Lemma then_None_iff (P : event → Prop) (m1 m2 : M (option error)) w :
  (result m1 w = None ↔ Forall P (trace m1 w)) →
  (∀ w', result m2 w' = None ↔ Forall P (trace m2 w')) →
  result (err ← m1; if err is Some e then mret (Some e) else m2) w = None
  ↔ Forall P (trace (err ← m1; if err is Some e then mret (Some e) else m2) w).
Proof. unmentioned.
  intros H1 H2. autorewrite with run. rewrite Forall_app.
  destruct (result m1 w) eqn:Hm1.
  - autorewrite with run. split; [done|]. intros [Ht _]. apply H1 in Ht. done.
  - rewrite H2. split; [|by intros [_ ?]]. intros. split; [by apply H1 | done].
Qed.

Lemma applyUnitFile_None_iff unit p w :
  result (applyUnitFile unit p) w = None ↔ Forall unit_call_ok (trace (applyUnitFile unit p) w).
Proof. unfold applyUnitFile. run_bool_first; deletion_cases. Qed.

Lemma applyChangedDropIn_None_iff unit p dir dropIn w :
  result (applyChangedDropIn unit p dir dropIn) w = None
  ↔ Forall unit_call_ok (trace (applyChangedDropIn unit p dir dropIn) w).
Proof. unfold applyChangedDropIn. run_bool_first; deletion_cases. Qed.

Lemma removeDeletedDropIn_None_iff unit dir dropIn w :
  result (removeDeletedDropIn unit dir dropIn) w = None
  ↔ Forall unit_call_ok (trace (removeDeletedDropIn unit dir dropIn) w).
Proof. unfold removeDeletedDropIn. run; deletion_cases. Qed.

Lemma applyEnablement_None_iff unit w :
  result (applyEnablement unit) w = None ↔ Forall unit_call_ok (trace (applyEnablement unit) w).
Proof. unfold applyEnablement. run; deletion_cases. Qed.

Lemma applyDropIns_None_iff unit p w :
  result (applyDropIns unit p) w = None ↔ Forall unit_call_ok (trace (applyDropIns unit p) w).
Proof. unmentioned.
  unfold applyDropIns. case_decide.
  - run; deletion_cases.
  - autorewrite with run. cbn [app]. rewrite Forall_cons. cbn [unit_call_ok].
    destruct (FS_MkdirAll _ _ w).1 eqn:Hmk.
    + autorewrite with run. split; [done | by intros []].
    + pose proof (then_None_iff unit_call_ok
        (range (dropIns_changed (unit_dropIns unit)) (applyChangedDropIn unit p (p +:+ ".d")))
        (range (dropIns_deleted (unit_dropIns unit)) (removeDeletedDropIn unit (p +:+ ".d")))
        (FS_MkdirAll (p +:+ ".d") fs_ModeDir w).2) as Hthen.
      rewrite Hthen; [tauto | |].
      * apply range_None_iff. intros. apply applyChangedDropIn_None_iff.
      * intros w'. apply range_None_iff. intros. apply removeDeletedDropIn_None_iff.
Qed.

(** X14.  The changed-units phase returns nil exactly when every call it made
    went well: reads and removals may have answered "no such file", every
    other call - MkdirAll, WriteFile, Chmod, Enable, Disable - has to have
    succeeded. *)
Theorem changed_units_fail_on_real_errors units w :
  result (applyChangedUnits units) w = None
  ↔ Forall unit_call_ok (trace (applyChangedUnits units) w).
Proof.
  revert w. apply range_None_iff. clear units. intros unit w.
  unfold applyChangedUnits_body.
  apply then_None_iff; [apply applyUnitFile_None_iff|]. intros w1.
  apply then_None_iff; [apply applyDropIns_None_iff|]. intros w2.
  apply applyEnablement_None_iff.
Qed.


(** *** Where the error of a phase comes from *)

(** A computation that, when it returns an error, has made the call that
    failed last, and returns an error that wraps the error of that call. *)
Definition reports_last_call (m : M (option error)) : Prop :=
  ∀ w e, result m w = Some e →
    ∃ c e', last (trace m w) = Some (Called c (Some e')) ∧ errors_Is e e' = true.

Lemma errors_Is_refl e : errors_Is e e = true.
Proof. destruct e; cbn; case_decide; done. Qed.

Lemma errors_Is_Errorf format args e target :
  errors_Is e target = true → errors_Is (Errorf format args e) target = true.
Proof. intros He. cbn. by case_decide. Qed.

Lemma err_and_Some err cond e : err_and err cond = Some e → err = Some e.
Proof. destruct err as [e'|]; cbn; [|done]. by destruct (cond e'). Qed.

Lemma range_reports {A} (body : A → M (option error)) l :
  (∀ x, reports_last_call (body x)) → reports_last_call (range l body).
Proof. unmentioned.
  intros Hbody. induction l as [|x l IH]; intros w e; cbn [range]; [done|].
  autorewrite with run. rewrite last_app.
  destruct (result (body x) w) eqn:Hx.
  - autorewrite with run. intros [= <-]. cbn [last]. by apply Hbody.
  - intros Hrest. destruct (IH _ _ Hrest) as (c & e' & Hlast & His).
    exists c, e'. by rewrite Hlast.
Qed.

Lemma then_reports (m1 m2 : M (option error)) :
  reports_last_call m1 → reports_last_call m2 →
  reports_last_call (err ← m1; if err is Some e then mret (Some e) else m2).
Proof. unmentioned.
  intros H1 H2 w e. autorewrite with run. rewrite last_app.
  destruct (result m1 w) eqn:Hm1.
  - autorewrite with run. intros [= <-]. cbn [last]. by apply H1.
  - intros Hrest. destruct (H2 _ _ Hrest) as (c & e' & Hlast & His).
    exists c, e'. by rewrite Hlast.
Qed.

Ltac last_call_cases :=
  repeat match goal with
         | H : err_and _ _ = Some _ |- _ => apply err_and_Some in H; try rewrite H in *
         | H : result _ _ = _ |- _ =>
             progress (autorewrite with run in H; cbn [fst snd app] in H)
         | H : result _ _ = _ |- _ => progress cbn in H
         end;
  simplify_eq;
  let Hres := fresh in
  intros Hres;
  first [ discriminate Hres
        | injection Hres as <-; eexists _, _;
          split; [reflexivity | first [apply errors_Is_refl | apply errors_Is_Errorf, errors_Is_refl]] ].

Lemma applyUnitFile_reports unit p : reports_last_call (applyUnitFile unit p).
Proof. intros w e. unfold applyUnitFile. run_bool_first; last_call_cases. Qed.

Lemma applyChangedDropIn_reports unit p dir dropIn :
  reports_last_call (applyChangedDropIn unit p dir dropIn).
Proof. intros w e. unfold applyChangedDropIn. run_bool_first; last_call_cases. Qed.

Lemma removeDeletedDropIn_reports unit dir dropIn :
  reports_last_call (removeDeletedDropIn unit dir dropIn).
Proof. intros w e. unfold removeDeletedDropIn. run_bool_first; last_call_cases. Qed.

Lemma applyEnablement_reports unit : reports_last_call (applyEnablement unit).
Proof. intros w e. unfold applyEnablement. run_bool_first; last_call_cases. Qed.

Lemma applyDropIns_reports unit p : reports_last_call (applyDropIns unit p).
Proof. unmentioned.
  unfold applyDropIns. case_decide.
  - intros w e. run_bool_first; last_call_cases.
  - intros w e. autorewrite with run. rewrite last_app.
    destruct (FS_MkdirAll _ _ w).1 eqn:Hmk.
    + autorewrite with run. intros [= <-]. cbn [last].
      eexists _, _. split; [reflexivity | apply errors_Is_Errorf, errors_Is_refl].
    + intros Hrest.
      destruct (then_reports
                  (range (dropIns_changed (unit_dropIns unit)) (applyChangedDropIn unit p (p +:+ ".d")))
                  (range (dropIns_deleted (unit_dropIns unit)) (removeDeletedDropIn unit (p +:+ ".d")))
                  (range_reports _ _ (applyChangedDropIn_reports unit p (p +:+ ".d")))
                  (range_reports _ _ (removeDeletedDropIn_reports unit (p +:+ ".d")))
                  _ _ Hrest) as (c & e' & Hlast & His).
      exists c, e'. by rewrite Hlast.
Qed.

Lemma removeDeletedUnits_body_reports node unit : reports_last_call (removeDeletedUnits_body node unit).
Proof. intros w e. unfold removeDeletedUnits_body. run_bool_first; last_call_cases. Qed.

Lemma removeDeletedFiles_body_reports file : reports_last_call (removeDeletedFiles_body file).
Proof. intros w e. unfold removeDeletedFiles_body. run_bool_first; last_call_cases. Qed.

(** X15.  The changed-units, delete-units and delete-files phases stop at the
    call that failed: when one of them returns an error, the last event of
    its trace is a call that answered an error, and the error returned wraps
    that error (it is found by [errors.Is]). *)
Theorem phase_error_is_the_last_call :
  (∀ units, reports_last_call (applyChangedUnits units))
  ∧ (∀ node units, reports_last_call (removeDeletedUnits node units))
  ∧ (∀ files, reports_last_call (removeDeletedFiles files)).
Proof.
  split_and!.
  - intros units. apply range_reports. intros unit. unfold applyChangedUnits_body.
    apply then_reports; [apply applyUnitFile_reports|].
    apply then_reports; [apply applyDropIns_reports | apply applyEnablement_reports].
  - intros node units. apply range_reports, removeDeletedUnits_body_reports.
  - intros files. apply range_reports, removeDeletedFiles_body_reports.
Qed.

End reconciler.

(** ** Passes of the scripted machine *)

(** [Reconcile] on the scripted machine: the node carries [nodeChecksum], the
    secret holds [osc] with [oscChecksum]. *)
Abbreviation example_Reconcile nodeChecksum osc oscChecksum :=
  (Reconcile (W:=script) (client:=scripted_client example_secret (example_node nodeChecksum))
     (afero:=scripted_afero []) (dbus:=scripted_dbus)
     example_OSC "/var/lib/gardener-node-agent" "checksum/cloud-config-data"
     "worker.gardener.cloud/kubernetes-version" "Normal" join_slash join_slash dir_name base_name decode_plain
     (example_extract osc oscChecksum) example_compute [] example_reconciler example_request).

Abbreviation example_pre nerr :=
  [Called (ClientGetSecret (RequestNamespacedName example_request)) None;
   Called (ClientGetNode "node-1") nerr].

(** The scratch directory cannot be made: the pass ends there. *)
Lemma failed_phase_ends_the_pass_witness :
  let w := [None; None; Some (ErrOther "no space left on device")] in
  result (example_Reconcile "old" (inl no_changes) "new") w
  = (Result_zero, Some (Errorf "failed applying changed files: %w" []
                          (Errorf "unable to create temporary directory: %w" []
                             (ErrOther "no space left on device"))))
  ∧ calls (trace (example_Reconcile "old" (inl no_changes) "new") w)
    = [ClientGetSecret (RequestNamespacedName example_request); ClientGetNode "node-1";
       FSTempDir "" "gardener-node-agent-*"].
Proof.
  intros w.
  destruct (failed_phase_ends_the_pass (W:=script)
      (client:=scripted_client example_secret (example_node "old"))
      (afero:=scripted_afero []) (dbus:=scripted_dbus)
      example_OSC "/var/lib/gardener-node-agent" "checksum/cloud-config-data"
      "worker.gardener.cloud/kubernetes-version" "Normal" join_slash join_slash dir_name base_name decode_plain
      (example_extract (inl no_changes) "new") example_compute [] example_reconciler example_request
      w (Some (example_node "old")) [] "new" no_changes
      [Some (ErrOther "no space left on device")]
      (example_pre None)
      [Logged 0 "Applying new or changed files" [];
       Called (FSTempDir "" "gardener-node-agent-*") (Some (ErrOther "no space left on device"))]
      []
      (Some (Errorf "failed applying changed files: %w" []
               (Errorf "unable to create temporary directory: %w" []
                  (ErrOther "no space left on device"))))) as [H _].
  - do 5 eexists. split_and!; reflexivity.
  - reflexivity.
  - exact (in_order_six (W:=script) (afero:=scripted_afero []) (dbus:=scripted_dbus)
             join_slash join_slash dir_name base_name decode_plain [] (Some (example_node "old")) no_changes
             [Some (ErrOther "no space left on device")]).
  - unfold result, trace. rewrite H. split; reflexivity.
Defined.

(** A pass with a changed file and a deleted unit, every call succeeding. *)
Lemma phases_run_in_fixed_order_witness :
  let changes :=
    {| changes_files :=
         {| files_changed := [ {| Path := "/etc/app.conf"; Permissions := None;
                                  Content := {| Inline := Some {| Encoding := ""; Data := "a=1" |} |} |} ];
            files_deleted := [] |};
       changes_units :=
         {| units_changed := [];
            units_deleted := [ {| Name := "bar.service"; Command := None; Enable := None;
                                  UnitContent := None; DropIns := [] |} ] |} |} in
  calls (trace (example_Reconcile "old" (inl changes) "new") [])
  = [ ClientGetSecret (RequestNamespacedName example_request); ClientGetNode "node-1";
      FSTempDir "" "gardener-node-agent-*";
      FSMkdirAll "/etc" fs_ModeDir;
      FSWriteFile "/tmp/gardener-node-agent-1/app.conf" (list_byte_of_string "a=1") 384;
      FSRename "/tmp/gardener-node-agent-1/app.conf" "/etc/app.conf";
      FSRemoveAll "/tmp/gardener-node-agent-1";
      DBusDisable "bar.service"; DBusStop "bar.service";
      FSRemove "/etc/systemd/system/bar.service"; FSRemoveAll "/etc/systemd/system/bar.service.d";
      DBusDaemonReload;
      FSWriteFile "/var/lib/gardener-node-agent/last-applied-osc.yaml" [] 420;
      ClientPatch
        (metav1_SetMetaDataAnnotation
           (metav1_SetMetaDataAnnotation (example_node "old")
              "worker.gardener.cloud/kubernetes-version" "1.27.1")
           "checksum/cloud-config-data" "new")
        (example_node "old") ].
Proof.
  intros changes.
  destruct (phases_run_in_fixed_order (W:=script)
      (client:=scripted_client example_secret (example_node "old"))
      (afero:=scripted_afero []) (dbus:=scripted_dbus)
      example_OSC "/var/lib/gardener-node-agent" "checksum/cloud-config-data"
      "worker.gardener.cloud/kubernetes-version" "Normal" join_slash join_slash dir_name base_name decode_plain
      (example_extract (inl changes) "new") example_compute [] example_reconciler example_request
      [] (Some (example_node "old")) [] "new" changes [] (example_pre None))
    as [(t & w' & out & Hrun & Htrace) _].
  - do 5 eexists. split_and!; reflexivity.
  - reflexivity.
  - apply in_order_unique in Hrun as (-> & -> & ->). rewrite Htrace. reflexivity.
Defined.

(** The node carries the checksum of the desired configuration. *)
Lemma converged_pass_is_skipped_witness :
  example_Reconcile "abc" (inl no_changes) "abc" []
  = ((Result_zero, None), [],
     example_pre None ++ [Logged 0 "Configuration on this node is up to date, nothing to be done" []])
  ∧ Forall (λ ev, touches_machine ev = false)
           (trace (example_Reconcile "abc" (inl no_changes) "abc") []).
Proof.
  apply (converged_pass_is_skipped (W:=script)
      (client:=scripted_client example_secret (example_node "abc"))
      (afero:=scripted_afero []) (dbus:=scripted_dbus)
      example_OSC "/var/lib/gardener-node-agent" "checksum/cloud-config-data"
      "worker.gardener.cloud/kubernetes-version" "Normal" join_slash join_slash dir_name base_name decode_plain
      (example_extract (inl no_changes) "abc") example_compute [] example_reconciler example_request
      [] (Some (example_node "abc")) [] "abc" (inl no_changes) [] (example_pre None)).
  - do 5 eexists. split_and!; reflexivity.
  - reflexivity.
Defined.

(** The node carries the checksum of the desired configuration, but the change
    set cannot be computed: the pass does not end successfully. *)
Lemma converged_pass_may_fail :
  up_to_date "checksum/cloud-config-data" (Some (example_node "abc")) "abc" = true
  ∧ result (example_Reconcile "abc" (inr (ErrOther "unexpected end of file")) "abc") []
    = (Result_zero,
       Some (Errorf "unable to calculate the OSC changes: %w" [] (ErrOther "unexpected end of file"))).
Proof. split; reflexivity. Qed.

(** A removal answered "no such file". *)
Lemma deletions_tolerate_absence_witness :
  let gone := Errorf "remove %s: %w" ["/etc/old.conf"] ErrFileNotFound in
  deletion_ok (Called (FSRemove "/etc/old.conf") (Some gone))
  ∧ deletion_ok (Called (FSRemoveAll "/etc/old.conf") (Some gone)).
Proof.
  intros gone.
  destruct (deletions_tolerate_absence (W:=script) (afero:=scripted_afero []) (dbus:=scripted_dbus)
              join_slash) as (_ & _ & _ & Hok).
  apply Hok. reflexivity.
Defined.

(** A unit file that already reads what is desired. *)
Lemma unchanged_content_is_not_rewritten_witness :
  trace (applyUnitFile (W:=script) (afero:=scripted_afero (list_byte_of_string "[Unit]"))
           (example_unit "foo.service" None None) "/etc/systemd/system/foo.service") []
  = [Called (FSReadFile "/etc/systemd/system/foo.service") None;
     Called (FSChmod "/etc/systemd/system/foo.service" defaultFilePermissions) None].
Proof.
  apply (proj1 (unchanged_content_is_not_rewritten (W:=script)
                  (afero:=scripted_afero (list_byte_of_string "[Unit]")) (dbus:=scripted_dbus)
                  join_slash) (example_unit "foo.service" None None)
               "/etc/systemd/system/foo.service" "[Unit]" []).
  - reflexivity.
  - reflexivity.
Defined.

(** The node is not found although the checksums agree. *)
Lemma missing_node_forces_apply_witness :
  ∃ t w' out,
    in_order (six_phases (W:=script) (afero:=scripted_afero []) (dbus:=scripted_dbus)
                join_slash join_slash dir_name base_name decode_plain [] None no_changes) [] t w' out
    ∧ calls t = [FSTempDir "" "gardener-node-agent-*"; FSRemoveAll "/tmp/gardener-node-agent-1";
                 DBusDaemonReload]
    ∧ out = None
    ∧ calls (trace (example_Reconcile "abc" (inl no_changes) "abc") [None; Some StatusNotFound])
      = [ClientGetSecret (RequestNamespacedName example_request); ClientGetNode "node-1"]
        ++ calls t ++ [FSWriteFile "/var/lib/gardener-node-agent/last-applied-osc.yaml" [] 420].
Proof.
  destruct (missing_node_forces_apply (W:=script)
      (client:=scripted_client example_secret (example_node "abc"))
      (afero:=scripted_afero []) (dbus:=scripted_dbus)
      example_OSC "/var/lib/gardener-node-agent" "checksum/cloud-config-data"
      "worker.gardener.cloud/kubernetes-version" "Normal" join_slash join_slash dir_name base_name decode_plain
      (example_extract (inl no_changes) "abc") example_compute [] example_reconciler example_request
      [None; Some StatusNotFound] example_secret [Some StatusNotFound] (example_node "abc") StatusNotFound
      [] (inl no_changes) [] "abc" no_changes)
    as (t & w' & out & Hrun & Hpass & Hcalls); try reflexivity.
  exists t, w', out. split; [exact Hrun|].
  apply in_order_unique in Hrun as (-> & -> & ->).
  split_and!; [reflexivity..|]. unfold trace in *. rewrite Hpass. reflexivity.
Defined.

(** An empty change set, every call succeeding. *)
Lemma daemon_reloaded_once_witness :
  reloads (trace (example_Reconcile "old" (inl no_changes) "new") []) = 1%nat.
Proof.
  apply (proj2 (daemon_reloaded_once (W:=script)
      (client:=scripted_client example_secret (example_node "old"))
      (afero:=scripted_afero []) (dbus:=scripted_dbus)
      example_OSC "/var/lib/gardener-node-agent" "checksum/cloud-config-data"
      "worker.gardener.cloud/kubernetes-version" "Normal" join_slash join_slash dir_name base_name decode_plain
      (example_extract (inl no_changes) "new") example_compute [] example_reconciler example_request
      [] (Some (example_node "old")) [] "new" no_changes [] (example_pre None)
      ltac:(do 5 eexists; split_and!; reflexivity) eq_refl)); reflexivity.
Defined.

(** *** Unit commands on the scripted machine *)

(** Scenario D: a unit with enabled=false and no command is stopped. *)
Example disabled_unit_is_stopped :
  executeUnitCommands (W:=script) (dbus:=scripted_dbus) [] None
    [example_unit "foo.service" (Some false) None] []
  = (None, [],
     [Called (DBusStop "foo.service") None;
      Logged 0 "Successfully stopped unit" [LStr "unitName"; LStr "foo.service"]]).
Proof. reflexivity. Qed.

(** Three units, the scheduler running the last one first; the second command
    to run fails, the third still runs, and the error of the second is what
    the phase returns. *)
Example failed_command_cancels_nothing :
  executeUnitCommands (W:=script) (dbus:=scripted_dbus) [2%nat; 1%nat; 0%nat] None
    [example_unit "a.service" None None;
     example_unit "b.service" None (Some CommandStop);
     example_unit "c.service" (Some true) (Some CommandStart)]
    [None; Some (ErrOther "timeout"); None]
  = (Some (Errorf "unable to stop unit %q: %w" ["b.service"] (ErrOther "timeout")), [],
     [Called (DBusRestart "c.service") None;
      Logged 0 "Successfully restarted unit" [LStr "unitName"; LStr "c.service"];
      Called (DBusStop "b.service") (Some (ErrOther "timeout"));
      Called (DBusRestart "a.service") None;
      Logged 0 "Successfully restarted unit" [LStr "unitName"; LStr "a.service"]]).
Proof. reflexivity. Qed.

(** A managed file may ask for its own mode; a unit file gets 0600. *)
Example file_mode_is_its_own :
  calls (trace (applyChangedFiles (W:=script) (afero:=scripted_afero [])
                  join_slash dir_name base_name decode_plain
                  [ {| Path := "/etc/app.conf"; Permissions := Some (octal [6; 4; 4]);
                       Content := {| Inline := Some {| Encoding := ""; Data := "a=1" |} |} |} ]) [])
  = [FSTempDir "" "gardener-node-agent-*"; FSMkdirAll "/etc" fs_ModeDir;
     FSWriteFile "/tmp/gardener-node-agent-1/app.conf" (list_byte_of_string "a=1") 420;
     FSRename "/tmp/gardener-node-agent-1/app.conf" "/etc/app.conf";
     FSRemoveAll "/tmp/gardener-node-agent-1"].
Proof. reflexivity. Qed.

(** *** Witnesses of the further properties *)

(** A statement about passes, taken at the scripted machine. *)
Abbreviation at_example thm nodeChecksum osc oscChecksum :=
  (thm script (scripted_client example_secret (example_node nodeChecksum))
     (scripted_afero []) scripted_dbus
     example_OSC "/var/lib/gardener-node-agent" "checksum/cloud-config-data"
     "worker.gardener.cloud/kubernetes-version" "Normal" join_slash join_slash dir_name base_name
     decode_plain (example_extract osc oscChecksum) example_compute [] example_reconciler
     example_request).

(** The secret is gone. *)
Lemma secret_fetch_failure_ends_pass_witness :
  example_Reconcile "old" (inl no_changes) "new" [Some StatusNotFound]
  = ((Result_zero, None), [],
     [Called (ClientGetSecret (RequestNamespacedName example_request)) (Some StatusNotFound);
      Logged 1 "Object is gone, stop reconciling" []]).
Proof.
  exact (at_example (@secret_fetch_failure_ends_pass) "old" (inl no_changes) "new"
           [Some StatusNotFound] example_secret StatusNotFound [] eq_refl).
Defined.

(** The API server cannot be reached for the node. *)
Lemma node_fetch_failure_ends_pass_witness :
  example_Reconcile "old" (inl no_changes) "new" [None; Some (ErrOther "connection refused")]
  = ((Result_zero,
      Some (Errorf "unable to fetch node %q: %w" ["node-1"] (ErrOther "connection refused"))), [],
     [Called (ClientGetSecret (RequestNamespacedName example_request)) None;
      Called (ClientGetNode "node-1") (Some (ErrOther "connection refused"))]).
Proof.
  exact (at_example (@node_fetch_failure_ends_pass) "old" (inl no_changes) "new"
           [None; Some (ErrOther "connection refused")] example_secret
           [Some (ErrOther "connection refused")] (example_node "old")
           (ErrOther "connection refused") [] eq_refl eq_refl eq_refl).
Defined.

(** A secret without the configuration. *)
Lemma undecodable_secret_ends_pass_witness :
  Reconcile (W:=script) (client:=scripted_client example_secret (example_node "old"))
    (afero:=scripted_afero []) (dbus:=scripted_dbus)
    example_OSC "/var/lib/gardener-node-agent" "checksum/cloud-config-data"
    "worker.gardener.cloud/kubernetes-version" "Normal" join_slash join_slash dir_name base_name
    decode_plain (λ _, inr (ErrOther "no osc.yaml key found in OSC secret")) example_compute []
    example_reconciler example_request []
  = ((Result_zero, Some (ErrOther "no osc.yaml key found in OSC secret")), [], example_pre None).
Proof.
  exact (undecodable_secret_ends_pass (W:=script)
           (client:=scripted_client example_secret (example_node "old"))
           (afero:=scripted_afero []) (dbus:=scripted_dbus)
           example_OSC "/var/lib/gardener-node-agent" "checksum/cloud-config-data"
           "worker.gardener.cloud/kubernetes-version" "Normal" join_slash join_slash dir_name
           base_name decode_plain (λ _, inr (ErrOther "no osc.yaml key found in OSC secret"))
           example_compute [] example_reconciler example_request
           [] example_secret [] (example_node "old") None []
           (ErrOther "no osc.yaml key found in OSC secret") eq_refl eq_refl eq_refl eq_refl).
Defined.

(** The phases of a pass over the empty change set, from the machine [w2]. *)
Abbreviation example_phases node w2 :=
  (in_order_six (W:=script) (afero:=scripted_afero []) (dbus:=scripted_dbus)
     join_slash join_slash dir_name base_name decode_plain [] node no_changes w2).

(** Every call succeeds: the node gets the checksum "new". *)
Lemma applied_pass_marks_node_witness :
  ∃ patched perr,
    patched = metav1_SetMetaDataAnnotation
                (metav1_SetMetaDataAnnotation (example_node "old")
                   "worker.gardener.cloud/kubernetes-version" "1.27.1")
                "checksum/cloud-config-data" "new"
    ∧ result (example_Reconcile "old" (inl no_changes) "new") []
      = ({| Requeue := false; RequeueAfter := 60 * time_Second |}, perr)
    ∧ last (trace (example_Reconcile "old" (inl no_changes) "new") [])
      = Some (Called (ClientPatch patched (example_node "old")) perr)
    ∧ up_to_date "checksum/cloud-config-data" (Some patched) "new" = true.
Proof.
  eapply (at_example (@applied_pass_marks_node) "old" (inl no_changes) "new"
           [] (example_node "old") [] "new" no_changes [] (example_pre None) _ []).
  - do 5 eexists. split_and!; reflexivity.
  - reflexivity.
  - exact (example_phases (Some (example_node "old")) []).
  - reflexivity.
Defined.

(** The disk turns read-only before the marker is written. *)
Lemma marker_write_failure_ends_pass_witness :
  let w := [None; None; None; None; None; Some (ErrOther "read-only file system")] in
  result (example_Reconcile "old" (inl no_changes) "new") w
  = (Result_zero,
     Some (Errorf "unable to write current OSC to file path %q: %w"
             ["/var/lib/gardener-node-agent/last-applied-osc.yaml"]
             (ErrOther "read-only file system")))
  ∧ last (trace (example_Reconcile "old" (inl no_changes) "new") w)
    = Some (Called (FSWriteFile "/var/lib/gardener-node-agent/last-applied-osc.yaml" [] (octal [6; 4; 4]))
              (Some (ErrOther "read-only file system")))
  ∧ Forall (λ ev, is_patch ev = false) (trace (example_Reconcile "old" (inl no_changes) "new") w)
  ∧ Forall (λ ev, ∀ kind reason message, ev ≠ Recorded kind reason message)
           (trace (example_Reconcile "old" (inl no_changes) "new") w).
Proof.
  intros w.
  eapply (at_example (@marker_write_failure_ends_pass) "old" (inl no_changes) "new"
           w (Some (example_node "old")) [] "new" no_changes
           [None; None; None; Some (ErrOther "read-only file system")] (example_pre None) _
           [Some (ErrOther "read-only file system")] (ErrOther "read-only file system")).
  - do 5 eexists. split_and!; reflexivity.
  - reflexivity.
  - exact (example_phases (Some (example_node "old"))
             [None; None; None; Some (ErrOther "read-only file system")]).
  - reflexivity.
Defined.

(** The kubelet has not registered the node yet. *)
Lemma unregistered_node_requeues_soon_witness :
  result (example_Reconcile "old" (inl no_changes) "new") [None; Some StatusNotFound]
  = ({| Requeue := false; RequeueAfter := 5000000000 |}, None)
  ∧ Forall (λ ev, is_patch ev = false)
           (trace (example_Reconcile "old" (inl no_changes) "new") [None; Some StatusNotFound]).
Proof.
  eapply (at_example (@unregistered_node_requeues_soon) "old" (inl no_changes) "new"
           [None; Some StatusNotFound] [] "new" no_changes [] (example_pre (Some StatusNotFound)) _ []).
  - do 5 eexists. split_and!; reflexivity.
  - exact (example_phases None []).
  - reflexivity.
Defined.

(** The patch of a pass in which every call succeeds. *)
Lemma patch_changes_two_annotations_witness :
  let patched := metav1_SetMetaDataAnnotation
                   (metav1_SetMetaDataAnnotation (example_node "old")
                      "worker.gardener.cloud/kubernetes-version" "1.27.1")
                   "checksum/cloud-config-data" "new" in
  NodeObjName patched = "node-1"
  ∧ ("worker.gardener.cloud/kubernetes-version" ≠ "checksum/cloud-config-data" →
     annotation patched "worker.gardener.cloud/kubernetes-version" = "1.27.1")
  ∧ ∀ key, key ≠ "worker.gardener.cloud/kubernetes-version" → key ≠ "checksum/cloud-config-data" →
      annotation patched key = annotation (example_node "old") key.
Proof.
  intros patched.
  apply (at_example (@patch_changes_two_annotations) "old" (inl no_changes) "new"
           [] patched (example_node "old") None).
  subst patched. unfold trace.
  match goal with
  | |- _ ∈ ?l => let l' := eval vm_compute in l in change l with l'
  end.
  do 15 apply list_elem_of_further. apply list_elem_of_here.
Defined.

(** The directory of the one file cannot be made: the scratch directory is
    removed all the same. *)
Lemma scratch_directory_is_removed_witness :
  let files := [ {| Path := "/etc/app.conf"; Permissions := None;
                    Content := {| Inline := Some {| Encoding := ""; Data := "a=1" |} |} |} ] in
  let w := [None; Some (ErrOther "permission denied")] in
  last (trace (applyChangedFiles (W:=script) (afero:=scripted_afero [])
                 join_slash dir_name base_name decode_plain files) w)
  = Some (Called (FSRemoveAll "/tmp/gardener-node-agent-1") None)
  ∧ result (applyChangedFiles (W:=script) (afero:=scripted_afero [])
              join_slash dir_name base_name decode_plain files) w
    = Some (Errorf "unable to create directory %q: %w" ["/etc/app.conf"]
              (ErrOther "permission denied")).
Proof.
  intros files w.
  exact (proj1 (scratch_directory_is_removed (W:=script) (afero:=scripted_afero [])
                  join_slash dir_name base_name decode_plain files w)
               "/tmp/gardener-node-agent-1" [Some (ErrOther "permission denied")] eq_refl).
Defined.


(** A unit without drop-ins whose directory is already gone, and a unit with
    one drop-in. *)
Lemma dropin_directory_follows_dropins_witness :
  let bare := {| unit_ := {| Name := "foo.service"; Command := None; Enable := None;
                             UnitContent := None; DropIns := [] |};
                 unit_dropIns := {| dropIns_changed := [];
                                    dropIns_deleted := [{| DropInName := "10-env.conf";
                                                           DropInContent := "" |}] |} |} in
  let p := "/etc/systemd/system/foo.service" in
  (trace (applyDropIns (W:=script) (afero:=scripted_afero []) join_slash bare p) [Some ErrFileNotFound]
   = [Called (FSRemoveAll "/etc/systemd/system/foo.service.d") (Some ErrFileNotFound)]
   ∧ (result (applyDropIns (W:=script) (afero:=scripted_afero []) join_slash bare p)
        [Some ErrFileNotFound] = None
      ↔ tolerated (Some ErrFileNotFound)))
  ∧ (head (trace (applyDropIns (W:=script) (afero:=scripted_afero []) join_slash
                    (example_unit "foo.service" None None) p) [])
     = Some (Called (FSMkdirAll "/etc/systemd/system/foo.service.d" fs_ModeDir) None)
     ∧ Forall (λ ev, is_remove_all ev = false)
         (trace (applyDropIns (W:=script) (afero:=scripted_afero []) join_slash
                   (example_unit "foo.service" None None) p) [])).
Proof.
  intros bare p. split.
  - exact (proj1 (dropin_directory_follows_dropins (W:=script) (afero:=scripted_afero [])
                    join_slash bare p [Some ErrFileNotFound]) eq_refl).
  - exact (proj2 (dropin_directory_follows_dropins (W:=script) (afero:=scripted_afero [])
                    join_slash (example_unit "foo.service" None None) p [])
                 ltac:(discriminate)).
Defined.

(** Two units, the second one disabled; every call succeeds. *)
Lemma changed_units_are_registered_witness :
  registrations
    (trace (applyChangedUnits (W:=script) (afero:=scripted_afero []) (dbus:=scripted_dbus) join_slash
              [example_unit "a.service" None None; example_unit "b.service" (Some false) None]) [])
  = [DBusEnable "a.service"; DBusDisable "b.service"].
Proof.
  exact (changed_units_are_registered (W:=script) (afero:=scripted_afero []) (dbus:=scripted_dbus)
           join_slash
           [example_unit "a.service" None None; example_unit "b.service" (Some false) None] []
           eq_refl).
Defined.

(** The unit cannot be enabled; the file cannot be removed. *)
Lemma phase_error_is_the_last_call_witness :
  let unit := example_unit "a.service" None None in
  let file := {| Path := "/etc/app.conf"; Permissions := None; Content := {| Inline := None |} |} in
  (∃ c e',
     last (trace (applyChangedUnits (W:=script) (afero:=scripted_afero []) (dbus:=scripted_dbus)
                    join_slash [unit; unit])
                 [None; None; None; None; None; None; None; Some (ErrOther "masked")])
     = Some (Called c (Some e'))
     ∧ errors_Is (Errorf "unable to enable unit %q: %w" ["a.service"] (ErrOther "masked")) e' = true)
  ∧ (∃ c e',
       last (trace (removeDeletedFiles (W:=script) (afero:=scripted_afero []) [file; file])
                   [None; Some (ErrOther "permission denied")])
       = Some (Called c (Some e'))
       ∧ errors_Is (Errorf "unable to delete no longer needed file %q: %w" ["/etc/app.conf"]
                      (ErrOther "permission denied")) e' = true).
Proof.
  intros unit file. split.
  - exact (proj1 (phase_error_is_the_last_call (W:=script) (afero:=scripted_afero [])
                    (dbus:=scripted_dbus) join_slash)
             [unit; unit] [None; None; None; None; None; None; None; Some (ErrOther "masked")] _ eq_refl).
  - exact (proj2 (proj2 (phase_error_is_the_last_call (W:=script) (afero:=scripted_afero [])
                           (dbus:=scripted_dbus) join_slash))
             [file; file] [None; Some (ErrOther "permission denied")] _ eq_refl).
Defined.
